(** * homebox-label-printer: the label strip generator [qr.py]

    A shallow embedding of [qr.py] and the properties of its ID codec,
    its label and strip geometry and its command-line control flow.

    Modelling conventions.
    - Python [int] is [Z]; [//] and [%] by a positive constant are [Z.div]
      and [Z.modulo] (both round towards minus infinity).
    - A Python [str] is a [string]; one [ascii] stands for one code point
      in the range 0..255.
    - An exception is a value of [exn]; code that may raise returns a
      [result].  Code with side effects (sub-processes, the file system,
      the console) runs in the state monad [M] over a [World].
    - Calls into Pillow, qrcode and the operating system whose results
      the script cannot determine are fields of the record [Runtime]. *)

From Stdlib Require Import ZArith NArith String Ascii List Lia Bool DecimalString.
From Stdlib Require Import DecimalPos DecimalN.
From stdpp Require Import gmap strings.
Import ListNotations.

Local Open Scope Z_scope.
Local Open Scope string_scope.

(** ** Exceptions and results *)

Inductive exn : Type :=
| ValueError (msg : string)
| CalledProcessError (returncode : Z) (cmd : list string)
| FileNotFoundError (filename : string)
| OSError (msg : string)
| IndexError (msg : string)
| SystemExit (code : Z).

Inductive result (A : Type) : Type :=
| Ok (a : A)
| Raise (e : exn).

Arguments Ok {A} a.
Arguments Raise {A} e.

Module Res.

Definition bind {A B} (r : result A) (k : A -> result B) : result B :=
  match r with
  | Ok a => k a
  | Raise e => Raise e
  end.

(** [try: body except ValueError as e: handler e] *)
Definition except_ValueError {A} (body : result A) (handler : string -> result A)
  : result A :=
  match body with
  | Raise (ValueError msg) => handler msg
  | other => other
  end.

End Res.

Notation "x <-? c ;; k" := (Res.bind c (fun x => k))
  (at level 100, c at next level, right associativity).

(** ** Built-in string operations *)

Module Py.

Definition code (c : ascii) : nat := nat_of_ascii c.

(** [str.split(sep)] for a one-character separator: never returns an
    empty list, and keeps empty fields. *)
Fixpoint split (sep : ascii) (s : string) : list string :=
  match s with
  | EmptyString => [EmptyString]
  | String c rest =>
      if Ascii.eqb c sep then EmptyString :: split sep rest
      else match split sep rest with
           | p :: ps => String c p :: ps
           | [] => [String c EmptyString]
           end
  end.

(** White space skipped by [int()]: the C-locale blanks, and the two
    blanks of the range 128..255, which [int()] first rewrites to a
    space. *)
Definition int_space (c : ascii) : bool :=
  let n := code c in
  ((9 <=? n) && (n <=? 13) || (n =? 32) || (n =? 133) || (n =? 160))%nat.

Definition digit_of (c : ascii) : option Z :=
  let n := code c in
  if ((48 <=? n) && (n <=? 57))%nat then Some (Z.of_nat n - 48) else None.

Fixpoint skip_spaces (s : string) : string :=
  match s with
  | String c rest => if int_space c then skip_spaces rest else s
  | EmptyString => s
  end.

Fixpoint all_spaces (s : string) : bool :=
  match s with
  | String c rest => int_space c && all_spaces rest
  | EmptyString => true
  end.

(** The digits of a decimal literal after its first digit: digits, with
    single underscores allowed between two digits.  Returns the value
    and the unread rest. *)
Fixpoint scan_digits (acc : Z) (after_underscore : bool) (s : string)
  : option (Z * string) :=
  match s with
  | EmptyString => if after_underscore then None else Some (acc, s)
  | String c rest =>
      match digit_of c with
      | Some d => scan_digits (acc * 10 + d) false rest
      | None =>
          if after_underscore then None
          else if Ascii.eqb c "_" then scan_digits acc true rest
          else Some (acc, s)
      end
  end.

(** [int(s)] in base 10: blanks, an optional sign, a decimal literal,
    blanks.  [None] stands for the [ValueError] it raises. *)
Definition parse_int (s : string) : option Z :=
  let s1 := skip_spaces s in
  let '(sign, s2) :=
    match s1 with
    | String "+" r => (1, r)
    | String "-" r => (-1, r)
    | _ => (1, s1)
    end in
  match s2 with
  | EmptyString => None
  | String c r =>
      match digit_of c with
      | None => None
      | Some d =>
          match scan_digits d false r with
          | Some (v, rest) => if all_spaces rest then Some (sign * v) else None
          | None => None
          end
      end
  end.

Definition hex_digit (n : nat) : ascii :=
  if (n <? 10)%nat then ascii_of_nat (48 + n) else ascii_of_nat (87 + n).

Definition printable (c : ascii) : bool :=
  let n := code c in
  ((32 <=? n) && (n <? 127) || (161 <=? n) && negb (n =? 173))%nat.

Definition quote1 : ascii := ascii_of_nat 39.
Definition quote2 : ascii := ascii_of_nat 34.
Definition backslash : ascii := ascii_of_nat 92.

Fixpoint contains (c : ascii) (s : string) : bool :=
  match s with
  | EmptyString => false
  | String d rest => Ascii.eqb c d || contains c rest
  end.

Fixpoint repr_body (q : ascii) (s : string) : string :=
  match s with
  | EmptyString => EmptyString
  | String c rest =>
      let n := code c in
      let esc :=
        if Ascii.eqb c q || Ascii.eqb c backslash
        then String backslash (String c EmptyString)
        else if (n =? 9)%nat then String backslash "t"
        else if (n =? 10)%nat then String backslash "n"
        else if (n =? 13)%nat then String backslash "r"
        else if printable c then String c EmptyString
        else String backslash
               (String "x" (String (hex_digit (n / 16))
                              (String (hex_digit (n mod 16)) EmptyString))) in
      esc ++ repr_body q rest
  end.

(** [repr(s)] of a string. *)
Definition repr (s : string) : string :=
  let q := if contains quote1 s && negb (contains quote2 s)
           then quote2 else quote1 in
  String q (repr_body q s ++ String q EmptyString).

(** [int(s)] with the exception it raises. *)
Definition int (s : string) : result Z :=
  match parse_int s with
  | Some z => Ok z
  | None =>
      Raise (ValueError ("invalid literal for int() with base 10: " ++ repr s))
  end.

(** The decimal digits of a natural number, most significant first. *)
Definition dec (n : N) : string :=
  DecimalString.NilZero.string_of_uint (N.to_uint n).

Fixpoint zeros (k : nat) : string :=
  match k with
  | O => EmptyString
  | S k' => String "0" (zeros k')
  end.

(** The format specification [03d]: sign-aware zero padding to a
    minimum width of three characters. *)
Definition format_03d (z : Z) : string :=
  let digits := dec (Z.abs_N z) in
  if (z <? 0)%Z
  then String "-" (zeros (2 - String.length digits) ++ digits)
  else zeros (3 - String.length digits) ++ digits.

(** [range(a, b)] *)
Definition range (a b : Z) : list Z :=
  map (fun k => a + Z.of_nat k) (seq 0 (Z.to_nat (b - a))).

(** White space of [str.strip()]. *)
Definition str_space (c : ascii) : bool :=
  let n := code c in
  ((9 <=? n) && (n <=? 13) || (28 <=? n) && (n <=? 32)
   || (n =? 133) || (n =? 160))%nat.

Fixpoint lstrip (s : string) : string :=
  match s with
  | String c rest => if str_space c then lstrip rest else s
  | EmptyString => s
  end.

(** Drops the trailing white space: [None] when all of [s] is white. *)
Fixpoint rstrip_aux (s : string) : option string :=
  match s with
  | EmptyString => None
  | String c rest =>
      match rstrip_aux rest with
      | Some kept => Some (String c kept)
      | None => if str_space c then None else Some (String c EmptyString)
      end
  end.

Definition strip (s : string) : string :=
  match rstrip_aux (lstrip s) with
  | Some kept => kept
  | None => EmptyString
  end.

(** [l[i]] for [i >= 0] *)
Definition getitem {A} (l : list A) (i : nat) : result A :=
  match nth_error l i with
  | Some x => Ok x
  | None => Raise (IndexError "list index out of range")
  end.

(** [sum(l)] *)
Definition sum (l : list Z) : Z := fold_left Z.add l 0%Z.

End Py.

(** ** The ID codec *)

(** [asset_id_to_int], lines 59-82. *)
Definition asset_id_to_int (asset_id_str : string) : result Z :=
  Res.except_ValueError
    (match Py.split "-" asset_id_str with
     | [part0; part1] =>
         major <-? Py.int part0 ;;
         minor <-? Py.int part1 ;;
         Ok (major * 1000 + minor)
     | _ => Raise (ValueError "Asset ID must be in 'XXX-YYY' format.")
     end)
    (fun e =>
       Raise (ValueError
                ("Invalid asset ID format: " ++ asset_id_str ++ ". " ++ e))).

(** The first statement of [create_label], line 97:
    [f"{number // 1000:03d}-{number % 1000:03d}"]. *)
Definition format_asset_id (number : Z) : string :=
  Py.format_03d (number / 1000) ++ "-" ++ Py.format_03d (number mod 1000).

(** The display form of an asset ID: three decimal digits, the separator,
    three decimal digits. *)
Definition is_digit (c : ascii) : bool :=
  ((48 <=? Py.code c) && (Py.code c <=? 57))%nat.

Definition is_asset_id_text (s : string) : bool :=
  match s with
  | String a (String b (String c (String d
      (String e (String f (String g EmptyString)))))) =>
      is_digit a && is_digit b && is_digit c && Ascii.eqb d "-"
      && is_digit e && is_digit f && is_digit g
  | _ => false
  end.

(** ** Raster images *)

Definition pixel : Type := Z * Z * Z.
Definition white : pixel := (255, 255, 255).
Definition black : pixel := (0, 0, 0).

Definition nonzero (p : pixel) : bool :=
  let '(r, g, b) := p in negb ((r =? 0) && (g =? 0) && (b =? 0))%Z.

(** An image is its size and its content; the content is read only at
    [0 <= x < width], [0 <= y < height]. *)
Record Image : Type := mkImage {
  width : Z;
  height : Z;
  getpixel : Z -> Z -> pixel
}.

Module Img.

(** [Image.new("RGB", size, color)] *)
Definition new (size : Z * Z) (color : pixel) : Image :=
  mkImage (fst size) (snd size) (fun _ _ => color).

(** [im.paste(src, box)] with a two-coordinate box: the size of [im] is
    kept and [src] is clipped to it. *)
Definition paste (im src : Image) (box : Z * Z) : Image :=
  let '(x0, y0) := box in
  mkImage (width im) (height im)
    (fun x y =>
       if ((x0 <=? x) && (x <? x0 + width src)
           && (y0 <=? y) && (y <? y0 + height src))%Z
       then getpixel src (x - x0) (y - y0)
       else getpixel im x y).

(** [im.getbbox()]: the bounding box (left, upper, right, lower) of the
    non-zero pixels, [None] when there is none. *)
Definition getbbox (im : Image) : option (Z * Z * Z * Z) :=
  let xs := Py.range 0 (width im) in
  let ys := Py.range 0 (height im) in
  let cols := List.filter (fun x => existsb (fun y => nonzero (getpixel im x y)) ys) xs in
  let rows := List.filter (fun y => existsb (fun x => nonzero (getpixel im x y)) xs) ys in
  match cols, rows with
  | x0 :: _, y0 :: _ =>
      Some (x0, y0, List.last cols x0 + 1, List.last rows y0 + 1)
  | _, _ => None
  end.

(** [im.crop(box)]; [crop(None)] is a copy. *)
Definition crop (im : Image) (box : option (Z * Z * Z * Z)) : Image :=
  match box with
  | None => im
  | Some (x0, y0, x1, y1) =>
      mkImage (x1 - x0) (y1 - y0)
        (fun x y => getpixel im (x + x0) (y + y0))
  end.

End Img.

(** ** The world outside the script *)

Inductive proc_result : Type :=
| Exited (returncode : Z) (stdout : string)
| NoSuchProgram.

(** [qrcode.constants] *)
Inductive error_correction : Type :=
| ERROR_CORRECT_L
| ERROR_CORRECT_M
| ERROR_CORRECT_Q
| ERROR_CORRECT_H.

(** What the script cannot determine by itself. *)
Record Runtime : Type := {
  Font : Type;
  (** the outcome of running a command line *)
  run_process : list string -> proc_result;
  (** [os.path.exists] *)
  path_exists : string -> bool;
  (** [ImageFont.truetype(path, size)] and [ImageFont.load_default()] *)
  truetype : string -> Z -> Font;
  load_default : Font;
  (** the symbol built by [QRCode(version, error_correction, box_size,
      border)], [add_data], [make(fit=True)], [make_image] and
      [convert('1')] *)
  qr_image : Z -> error_correction -> Z -> Z -> string -> Image;
  (** the content of an image after [ImageDraw.text(xy, text,
      fill="black", font, anchor="la")] *)
  draw_text : Image -> Z * Z -> string -> Font -> Z -> Z -> pixel;
  (** the content of an image after [convert("1").convert("RGB")] *)
  bilevel : Image -> Z -> Z -> pixel;
  (** the exception of [Image.save(filename)], if any *)
  save_failure : string -> option exn;
  (** [str(e)] of an exception raised by a library *)
  exn_text : exn -> string
}.

Inductive event : Type :=
| Spawn (argv : list string)
| QrEncode (data : string)
| DrawText (xy : Z * Z) (text : string)
| SaveImage (filename : string)
| Stdout (line : string)
| UsageError (message : string).

Record World : Type := mkWorld {
  files : gmap string Image;
  trace : list event
}.

(** ** The monad of effectful code *)

Definition M (A : Type) : Type := World -> result A * World.

Module Eff.

Definition ret {A} (a : A) : M A := fun w => (Ok a, w).

Definition raise {A} (e : exn) : M A := fun w => (Raise e, w).

Definition bind {A B} (c : M A) (k : A -> M B) : M B :=
  fun w =>
    match c w with
    | (Ok a, w') => k a w'
    | (Raise e, w') => (Raise e, w')
    end.

(** [try: body except ...: handler]; [handler e = None] when no clause
    matches [e]. *)
Definition try_except {A} (body : M A) (handler : exn -> option (M A)) : M A :=
  fun w =>
    match body w with
    | (Ok a, w') => (Ok a, w')
    | (Raise e, w') =>
        match handler e with
        | Some h => h w'
        | None => (Raise e, w')
        end
    end.

Definition lift {A} (r : result A) : M A := fun w => (r, w).

Definition emit (e : event) : M unit :=
  fun w => (Ok tt, mkWorld (files w) (trace w ++ [e])).

Definition write_file (name : string) (im : Image) : M unit :=
  fun w => (Ok tt, mkWorld (<[name := im]> (files w)) (trace w)).

Fixpoint mapM {A B} (f : A -> M B) (l : list A) : M (list B) :=
  match l with
  | [] => ret []
  | x :: rest =>
      bind (f x) (fun y => bind (mapM f rest) (fun ys => ret (y :: ys)))
  end.

End Eff.

Notation "x <- c ;; k" := (Eff.bind c (fun x => k))
  (at level 100, c at next level, right associativity).
Notation "c ;;; k" := (Eff.bind c (fun _ => k))
  (at level 100, right associativity).

(** ** The script *)

Definition TAPE_HEIGHT : Z := 76.
Definition ELEMENT_GAP : Z := 6.
Definition LABEL_GAP : Z := 1.
Definition QR_VERSION : Z := 1.
Definition QR_ERROR_CORRECTION : error_correction := ERROR_CORRECT_M.
Definition QR_BOX_SIZE : Z := 2.
Definition QR_BORDER : Z := 4.
Definition FONT_SIZE : Z := 32.
Definition TEXT_LINE_SPACING : Z := 28.
Definition TEXT_START_Y : Z := 38.
Definition TEMP_CANVAS_WIDTH : Z := 90.

Section Script.

Context (rt : Runtime).

(** [subprocess.check_output(cmd)] and [subprocess.run(cmd, check=True)] *)
Definition check_output (cmd : list string) : M string :=
  Eff.emit (Spawn cmd) ;;;
  match run_process rt cmd with
  | Exited 0 out => Eff.ret out
  | Exited rc _ => Eff.raise (CalledProcessError rc cmd)
  | NoSuchProgram => Eff.raise (FileNotFoundError (hd EmptyString cmd))
  end.

Definition run_checked (cmd : list string) : M unit :=
  _ <- check_output cmd ;; Eff.ret tt.

Definition process_failure (e : exn) : bool :=
  match e with
  | CalledProcessError _ _ | FileNotFoundError _ => true
  | _ => false
  end.

(** [get_font], line 50: the command of the font query. *)
Definition fc_match_cmd : list string :=
  ["fc-match"; "-f"; "%{file}"; "sans:style=ExtraBold:weight=200:bold"].

(** [generate_label_strip], line 162: the command of the print utility. *)
Definition print_cmd (image_filename : string) : list string :=
  ["ptouch-print"; "--image"; image_filename].

(** [get_font], lines 37-56. *)
Definition get_font (size : Z) : M (Font rt) :=
  found <- Eff.try_except
    (out <- check_output fc_match_cmd ;;
     let font_path := Py.strip out in
     if path_exists rt font_path
     then Eff.ret (Some (truetype rt font_path size))
     else Eff.ret None)
    (fun e => if process_failure e then Some (Eff.ret None) else None) ;;
  match found with
  | Some font => Eff.ret font
  | None => Eff.ret (load_default rt)
  end.

(** [create_label], lines 99-107: the QR symbol. *)
Definition qr_symbol (data : string) : M Image :=
  Eff.emit (QrEncode data) ;;;
  Eff.ret (qr_image rt QR_VERSION QR_ERROR_CORRECTION QR_BOX_SIZE QR_BORDER data).

Definition text (im : Image) (xy : Z * Z) (s : string) (font : Font rt) : M Image :=
  Eff.emit (DrawText xy s) ;;;
  Eff.ret (mkImage (width im) (height im) (draw_text rt im xy s font)).

Definition convert_bilevel (im : Image) : Image :=
  mkImage (width im) (height im) (bilevel rt im).

(** [create_label], lines 110-120: the text block. *)
Definition text_block (font : Font rt) (asset_id : string) : M Image :=
  let parts := Py.split "-" asset_id in
  let temp_txt := Img.new (TEMP_CANVAS_WIDTH, TAPE_HEIGHT * 2) white in
  part0 <- Eff.lift (Py.getitem parts 0) ;;
  temp_txt <- text temp_txt (0, TEXT_START_Y) part0 font ;;
  part1 <- Eff.lift (Py.getitem parts 1) ;;
  temp_txt <- text temp_txt (0, TEXT_START_Y + TEXT_LINE_SPACING) part1 font ;;
  let temp_txt := convert_bilevel temp_txt in
  Eff.ret (Img.crop temp_txt (Img.getbbox temp_txt)).

(** [create_label], lines 123-128: the symbol and the text side by side. *)
Definition assemble_unit (qr_img text_img : Image) : Image :=
  let unit_w := width qr_img + ELEMENT_GAP + width text_img in
  let unit := Img.new (unit_w, TAPE_HEIGHT) white in
  let unit := Img.paste unit qr_img (0, (TAPE_HEIGHT - height qr_img) / 2) in
  let unit := Img.paste unit text_img
                (width qr_img + ELEMENT_GAP, (TAPE_HEIGHT - height text_img) / 2) in
  unit.

(** [create_label], lines 84-128. *)
Definition create_label (number : Z) (url : string) : M Image :=
  let asset_id := format_asset_id number in
  qr_img <- qr_symbol (url ++ asset_id) ;;
  font <- get_font FONT_SIZE ;;
  text_img <- text_block font asset_id ;;
  Eff.ret (assemble_unit qr_img text_img).

(** [generate_label_strip], lines 144-150: the strip of the labels. *)
Definition assemble_strip (labels : list Image) : Image :=
  let total_w := Py.sum (map width labels)
                 + Z.of_nat (length labels) * LABEL_GAP in
  let strip := Img.new (total_w, TAPE_HEIGHT) white in
  let '(strip, x_cursor) :=
    fold_left
      (fun '(strip, x_cursor) l =>
         (Img.paste strip l (x_cursor, 0), x_cursor + (width l + LABEL_GAP)))
      labels (strip, 0) in
  strip.

(** [strip.save(image_filename)] *)
Definition save (im : Image) (filename : string) : M unit :=
  match save_failure rt filename with
  | Some e => Eff.raise e
  | None => Eff.write_file filename im ;;; Eff.emit (SaveImage filename)
  end.

(** [generate_label_strip], lines 152-155: [None] and the empty string
    are both false. *)
Definition image_filename_of (output_filename : option string) : string :=
  match output_filename with
  | None | Some EmptyString => "asset_labels.png"
  | Some name => name
  end.

(** [generate_label_strip], lines 131-165. *)
Definition generate_label_strip (start_id end_id : Z) (url : string)
    (print_label : bool) (output_filename : option string) : M unit :=
  labels <- Eff.mapM (fun i => create_label i url)
              (Py.range start_id (end_id + 1)) ;;
  let strip := assemble_strip labels in
  let image_filename := image_filename_of output_filename in
  save strip image_filename ;;;
  Eff.emit (Stdout ("Successfully created " ++ image_filename)) ;;;
  if print_label
  then
    Eff.try_except
      (run_checked (print_cmd image_filename) ;;;
       Eff.emit (Stdout ("Successfully printed " ++ image_filename)))
      (fun e =>
         if process_failure e
         then Some (Eff.emit (Stdout ("Error printing " ++ image_filename
                                     ++ ": " ++ exn_text rt e)))
         else None)
  else Eff.ret tt.

(** The command line as [argparse] reads it, and the environment. *)
Record Invocation : Type := {
  opt_start : option string;
  opt_end : option string;
  opt_domain : option string;
  opt_print : bool;
  opt_output : option string;
  env_HOMEBOX_DOMAIN : option string
}.

Record Namespace : Type := {
  args_start : string;
  args_end : string;
  args_domain : option string;
  args_print : bool;
  args_output : option string
}.

(** [parser.error(message)]: the usage message, then exit status 2. *)
Definition parser_error {A} (message : string) : M A :=
  Eff.emit (UsageError message) ;;; Eff.raise (SystemExit 2).

(** [parse_args], lines 168-183. *)
Definition parse_args (inv : Invocation) : M Namespace :=
  match opt_start inv, opt_end inv with
  | Some s, Some e =>
      Eff.ret {| args_start := s;
                 args_end := e;
                 args_domain := match opt_domain inv with
                                | Some d => Some d
                                | None => env_HOMEBOX_DOMAIN inv
                                end;
                 args_print := opt_print inv;
                 args_output := opt_output inv |}
  | None, Some _ =>
      parser_error "the following arguments are required: --start"
  | Some _, None =>
      parser_error "the following arguments are required: --end"
  | None, None =>
      parser_error "the following arguments are required: --start, --end"
  end.

(** [main], lines 186-205. *)
Definition main (inv : Invocation) : M unit :=
  args <- parse_args inv ;;
  match args_domain args with
  | None | Some EmptyString =>
      parser_error
        "The --domain argument or HOMEBOX_DOMAIN environment variable is required."
  | Some domain =>
      ids <-
        Eff.try_except
          (start_int <- Eff.lift (asset_id_to_int (args_start args)) ;;
           end_int <- Eff.lift (asset_id_to_int (args_end args)) ;;
           Eff.ret (start_int, end_int))
          (fun e => match e with
                    | ValueError msg => Some (parser_error msg)
                    | _ => None
                    end) ;;
      let '(start_int, end_int) := ids in
      if (start_int >? end_int)%Z
      then parser_error
             ("Starting asset ID (" ++ args_start args
              ++ ") cannot be greater than ending asset ID ("
              ++ args_end args ++ ").")
      else
        let full_url := "https://" ++ domain ++ "/a/" in
        generate_label_strip start_int end_int full_url
          (args_print args) (args_output args)
  end.

(** The exit status of the process that runs [main]. *)
Definition exit_status (r : result unit) : Z :=
  match r with
  | Ok _ => 0
  | Raise (SystemExit code) => code
  | Raise _ => 1
  end.

Definition run_main (inv : Invocation) (w : World) : Z * World :=
  let '(r, w') := main inv w in (exit_status r, w').

End Script.

(** ** Auxiliary definitions of the proofs *)

Definition digits3 (a b c : nat) : string :=
  String (ascii_of_nat (48 + a))
    (String (ascii_of_nat (48 + b)) (String (ascii_of_nat (48 + c)) EmptyString)).

(** What is checked of each three-digit text: it holds no separator, it
    parses to its value, and its value formats back to it. *)
Definition digits3_ok (a b c : nat) : bool :=
  let t := digits3 a b c in
  let z := Z.of_nat (100 * a + 10 * b + c) in
  negb (Py.contains "-" t)
  && bool_decide (Py.parse_int t = Some z)
  && bool_decide (Py.format_03d z = t).

(** The same for the text that [format_03d] gives a number below 1000. *)
Definition below_1000_ok (k : nat) : bool :=
  let t := Py.format_03d (Z.of_nat k) in
  negb (Py.contains "-" t) && bool_decide (Py.parse_int t = Some (Z.of_nat k)).

(** The font that [get_font] returns. *)
Definition font_of (rt : Runtime) (size : Z) : Font rt :=
  match run_process rt fc_match_cmd with
  | Exited 0 out =>
      if path_exists rt (Py.strip out)
      then truetype rt (Py.strip out) size
      else load_default rt
  | _ => load_default rt
  end.

(** The two texts that [create_label] draws for a number. *)
Definition id_parts (number : Z) : string * string :=
  match Py.split "-" (format_asset_id number) with
  | part0 :: part1 :: _ => (part0, part1)
  | _ => (EmptyString, EmptyString)
  end.

(** The QR symbol and the text block of the label of a number. *)
Definition label_qr (rt : Runtime) (number : Z) (url : string) : Image :=
  qr_image rt QR_VERSION QR_ERROR_CORRECTION QR_BOX_SIZE QR_BORDER
    (url ++ format_asset_id number).

Definition label_text (rt : Runtime) (number : Z) : Image :=
  let font := font_of rt FONT_SIZE in
  let '(part0, part1) := id_parts number in
  let canvas0 := Img.new (TEMP_CANVAS_WIDTH, TAPE_HEIGHT * 2) white in
  let canvas1 :=
    mkImage (width canvas0) (height canvas0)
      (draw_text rt canvas0 (0, TEXT_START_Y) part0 font) in
  let canvas2 :=
    mkImage (width canvas1) (height canvas1)
      (draw_text rt canvas1 (0, TEXT_START_Y + TEXT_LINE_SPACING) part1 font) in
  let canvas3 := convert_bilevel rt canvas2 in
  Img.crop canvas3 (Img.getbbox canvas3).

Definition label_of (rt : Runtime) (number : Z) (url : string) : Image :=
  assemble_unit (label_qr rt number url) (label_text rt number).

(** The labels and the strip of a range. *)
Definition labels_of (rt : Runtime) (start_id end_id : Z) (url : string)
  : list Image :=
  map (fun i => label_of rt i url) (Py.range start_id (end_id + 1)).

Definition strip_of (rt : Runtime) (start_id end_id : Z) (url : string) : Image :=
  assemble_strip (labels_of rt start_id end_id url).

(** The value of [args.domain]. *)
Definition domain_of (inv : Invocation) : option string :=
  match opt_domain inv with
  | Some d => Some d
  | None => env_HOMEBOX_DOMAIN inv
  end.

(** The exception of [subprocess.run(print_cmd name, check=True)], if any. *)
Definition print_failure (name : string) (r : proc_result) : option exn :=
  match r with
  | Exited 0 _ => None
  | Exited rc _ => Some (CalledProcessError rc (print_cmd name))
  | NoSuchProgram => Some (FileNotFoundError "ptouch-print")
  end.

(** The events of one call of [create_label]. *)
Definition label_events (number : Z) (url : string) : list event :=
  [ QrEncode (url ++ format_asset_id number);
    Spawn fc_match_cmd;
    DrawText (0, TEXT_START_Y) (fst (id_parts number));
    DrawText (0, TEXT_START_Y + TEXT_LINE_SPACING) (snd (id_parts number)) ].

(** The payloads of the QR symbols and the texts drawn, in order. *)
Definition encoded (t : list event) : list string :=
  flat_map (fun e => match e with QrEncode d => [d] | _ => [] end) t.

Definition rendering (start_id end_id : Z) (url : string) : list event :=
  flat_map (fun i => label_events i url) (Py.range start_id (end_id + 1)).

Definition drawn (t : list event) : list string :=
  flat_map (fun e => match e with DrawText _ s => [s] | _ => [] end) t.

(** An event of rendering, of storing or of a sub-process. *)
Definition is_work (e : event) : bool :=
  match e with
  | Spawn _ | QrEncode _ | DrawText _ _ | SaveImage _ => true
  | Stdout _ | UsageError _ => false
  end.

(** A stand-in for the libraries: symbols of the nominal size for the
    requested version, text drawn as a filled box, no fonts installed and
    a print utility with the given outcome. *)
Definition sample_runtime (print_outcome : proc_result) : Runtime :=
  {| Font := unit;
     run_process := fun argv =>
       match argv with
       | "ptouch-print" :: _ => print_outcome
       | _ => NoSuchProgram
       end;
     path_exists := fun _ => false;
     truetype := fun _ _ => tt;
     load_default := tt;
     qr_image := fun version _ box_size border _ =>
       Img.new ((17 + 4 * version + 2 * border) * box_size,
                (17 + 4 * version + 2 * border) * box_size) white;
     draw_text := fun im xy s _ x y =>
       if ((fst xy <=? x) && (x <? fst xy + 16 * Z.of_nat (String.length s))
           && (snd xy <=? y) && (y <? snd xy + 24))%Z
       then black else getpixel im x y;
     bilevel := fun im => getpixel im;
     save_failure := fun _ => None;
     exn_text := fun _ => "print failed" |}.

Definition empty_world : World := mkWorld ∅ [].

Definition sample_invocation (first last : string) (print : bool) : Invocation :=
  {| opt_start := Some first;
     opt_end := Some last;
     opt_domain := Some "box.example.com";
     opt_print := print;
     opt_output := None;
     env_HOMEBOX_DOMAIN := None |}.

(** The value of a text of decimal digits read after the value [acc],
    and the texts made of decimal digits only. *)
Fixpoint digits_value (acc : Z) (s : string) : Z :=
  match s with
  | EmptyString => acc
  | String c rest =>
      digits_value (acc * 10 + (Z.of_nat (Py.code c) - 48)) rest
  end.

Fixpoint all_digits (s : string) : bool :=
  match s with
  | EmptyString => true
  | String c rest => is_digit c && all_digits rest
  end.

(** The value of a decimal numeral read after the value [acc]. *)
Fixpoint uint_value (acc : Z) (d : Decimal.uint) : Z :=
  match d with
  | Decimal.Nil => acc
  | Decimal.D0 l => uint_value (acc * 10 + 0) l
  | Decimal.D1 l => uint_value (acc * 10 + 1) l
  | Decimal.D2 l => uint_value (acc * 10 + 2) l
  | Decimal.D3 l => uint_value (acc * 10 + 3) l
  | Decimal.D4 l => uint_value (acc * 10 + 4) l
  | Decimal.D5 l => uint_value (acc * 10 + 5) l
  | Decimal.D6 l => uint_value (acc * 10 + 6) l
  | Decimal.D7 l => uint_value (acc * 10 + 7) l
  | Decimal.D8 l => uint_value (acc * 10 + 8) l
  | Decimal.D9 l => uint_value (acc * 10 + 9) l
  end.

(** The command lines of the sub-processes started, in order. *)
Definition spawned (t : list event) : list (list string) :=
  flat_map (fun e => match e with Spawn argv => [argv] | _ => [] end) t.

(** The column of the strip at which the label of position [k] starts. *)
Definition label_offset (labels : list Image) (k : nat) : Z :=
  Py.sum (map width (firstn k labels)) + Z.of_nat k * LABEL_GAP.

(** The canvas of [create_label] before it is cropped (lines 113-119). *)
Definition text_canvas (rt : Runtime) (number : Z) : Image :=
  let font := font_of rt FONT_SIZE in
  let canvas0 := Img.new (TEMP_CANVAS_WIDTH, TAPE_HEIGHT * 2) white in
  let canvas1 :=
    mkImage (width canvas0) (height canvas0)
      (draw_text rt canvas0 (0, TEXT_START_Y) (fst (id_parts number)) font) in
  let canvas2 :=
    mkImage (width canvas1) (height canvas1)
      (draw_text rt canvas1 (0, TEXT_START_Y + TEXT_LINE_SPACING)
         (snd (id_parts number)) font) in
  convert_bilevel rt canvas2.

(** A runtime with one installed font, whose path the font query prints
    on a line of its own. *)
Definition font_query_output : string :=
  String (ascii_of_nat 32)
    ("/fonts/Heavy.ttf" ++ String (ascii_of_nat 10) EmptyString).

Definition font_runtime : Runtime :=
  {| Font := string;
     run_process := fun argv =>
       match argv with
       | "fc-match" :: _ => Exited 0 font_query_output
       | _ => NoSuchProgram
       end;
     path_exists := fun path => String.eqb path "/fonts/Heavy.ttf";
     truetype := fun path _ => path;
     load_default := "default";
     qr_image := qr_image (sample_runtime NoSuchProgram);
     draw_text := fun im _ _ _ => getpixel im;
     bilevel := fun im => getpixel im;
     save_failure := fun _ => None;
     exn_text := fun _ => "failed" |}.

(** The stand-in of the libraries on a file system that refuses every
    write. *)
Definition read_only_runtime : Runtime :=
  let rt := sample_runtime NoSuchProgram in
  {| Font := Font rt;
     run_process := run_process rt;
     path_exists := path_exists rt;
     truetype := truetype rt;
     load_default := load_default rt;
     qr_image := qr_image rt;
     draw_text := draw_text rt;
     bilevel := bilevel rt;
     save_failure := fun _ => Some (OSError "Read-only file system");
     exn_text := exn_text rt |}.

(** The content of the strip read off the labels: the pixel of the label
    whose columns hold [x], or of the background [base]. *)
Fixpoint strip_pixel (labels : list Image) (x_cursor : Z)
    (base : Z -> Z -> pixel) (x y : Z) : pixel :=
  match labels with
  | [] => base x y
  | l :: rest =>
      if ((x_cursor <=? x) && (x <? x_cursor + width l)
          && (0 <=? y) && (y <? 0 + height l))%Z
      then getpixel l (x - x_cursor) (y - 0)
      else strip_pixel rest (x_cursor + (width l + LABEL_GAP)) base x y
  end.

(** ** Properties of the built-in string operations *)

Section SplitFacts.

Variable sep : ascii.

Lemma split_not_nil (s : string) : Py.split sep s <> [].
Proof.
  destruct s as [|c rest]; simpl; [discriminate|].
  destruct (Ascii.eqb c sep); [discriminate|].
  destruct (Py.split sep rest); discriminate.
Qed.

Lemma split_no_sep (s : string) :
  Py.contains sep s = false -> Py.split sep s = [s].
Proof.
  induction s as [|c rest IH]; simpl; [reflexivity|].
  intros H. apply orb_false_iff in H as [Hc Hrest].
  rewrite Ascii.eqb_sym, Hc, (IH Hrest). reflexivity.
Qed.

Lemma split_app (u v : string) :
  Py.split sep (u ++ String sep v) = (Py.split sep u ++ Py.split sep v)%list.
Proof.
  induction u as [|c rest IH]; simpl.
  - rewrite Ascii.eqb_refl. reflexivity.
  - destruct (Ascii.eqb c sep); [now rewrite IH|].
    rewrite IH. destruct (Py.split sep rest) eqn:E; [|reflexivity].
    now apply split_not_nil in E.
Qed.

(** The last field of [u + sep + v] is [v] when [v] holds no separator. *)
Lemma split_two_last (u v p0 p1 : string) :
  Py.contains sep v = false ->
  Py.split sep (u ++ String sep v) = [p0; p1] -> p1 = v.
Proof.
  intros Hv. rewrite split_app, (split_no_sep v Hv).
  destruct (Py.split sep u) as [|x [|y l]] eqn:E; simpl.
  - now apply split_not_nil in E.
  - congruence.
  - destruct l; discriminate.
Qed.

End SplitFacts.

Lemma is_digit_char (c : ascii) :
  is_digit c = true ->
  exists k : nat, (k < 10)%nat /\ c = ascii_of_nat (48 + k).
Proof.
  intros H. exists (Py.code c - 48)%nat.
  destruct c as [[] [] [] [] [] [] [] []]; try discriminate H;
    (split; [vm_compute; lia | reflexivity]).
Qed.

Lemma digits3_table :
  forallb (fun a => forallb (fun b => forallb (digits3_ok a b) (seq 0 10))
                      (seq 0 10)) (seq 0 10) = true.
Proof. vm_compute. reflexivity. Qed.

Lemma digits3_spec (a b c : nat) :
  (a < 10)%nat -> (b < 10)%nat -> (c < 10)%nat ->
  let t := digits3 a b c in
  let z := Z.of_nat (100 * a + 10 * b + c) in
  Py.contains "-" t = false /\ Py.parse_int t = Some z /\ Py.format_03d z = t.
Proof.
  intros Ha Hb Hc t z.
  pose proof digits3_table as T.
  rewrite forallb_forall in T. specialize (T a). rewrite in_seq in T.
  specialize (T ltac:(lia)).
  rewrite forallb_forall in T. specialize (T b). rewrite in_seq in T.
  specialize (T ltac:(lia)).
  rewrite forallb_forall in T. specialize (T c). rewrite in_seq in T.
  specialize (T ltac:(lia)).
  unfold digits3_ok in T. fold t z in T.
  apply andb_true_iff in T as [T T3]. apply andb_true_iff in T as [T1 T2].
  apply negb_true_iff in T1.
  apply bool_decide_eq_true in T2, T3. auto.
Qed.

Lemma below_1000_table : forallb below_1000_ok (seq 0 1000) = true.
Proof. vm_compute. reflexivity. Qed.

Lemma format_03d_below_1000 (z : Z) :
  0 <= z < 1000 ->
  Py.contains "-" (Py.format_03d z) = false
  /\ Py.parse_int (Py.format_03d z) = Some z.
Proof.
  intros Hz. pose proof below_1000_table as T.
  rewrite forallb_forall in T. specialize (T (Z.to_nat z)).
  rewrite in_seq in T. specialize (T ltac:(lia)).
  unfold below_1000_ok in T. rewrite Z2Nat.id in T by lia.
  apply andb_true_iff in T as [T1 T2].
  apply negb_true_iff in T1. apply bool_decide_eq_true in T2. auto.
Qed.

(** ** Properties of the ID codec *)

Lemma asset_id_to_int_two_parts (s p0 p1 : string) :
  Py.split "-" s = [p0; p1] ->
  asset_id_to_int s =
    match Py.parse_int p0, Py.parse_int p1 with
    | Some major, Some minor => Ok (major * 1000 + minor)
    | None, _ =>
        Raise (ValueError ("Invalid asset ID format: " ++ s ++ ". "
                 ++ "invalid literal for int() with base 10: " ++ Py.repr p0))
    | Some _, None =>
        Raise (ValueError ("Invalid asset ID format: " ++ s ++ ". "
                 ++ "invalid literal for int() with base 10: " ++ Py.repr p1))
    end.
Proof.
  intros E. unfold asset_id_to_int, Py.int. rewrite E.
  destruct (Py.parse_int p0); simpl; [|reflexivity].
  destruct (Py.parse_int p1); reflexivity.
Qed.

Lemma asset_id_to_int_other_count (s : string) :
  length (Py.split "-" s) <> 2%nat ->
  asset_id_to_int s =
    Raise (ValueError ("Invalid asset ID format: " ++ s ++ ". "
             ++ "Asset ID must be in 'XXX-YYY' format.")).
Proof.
  intros H. unfold asset_id_to_int.
  destruct (Py.split "-" s) as [|p0 [|p1 [|p2 l]]]; simpl in *;
    try reflexivity.
  congruence.
Qed.

(** ** The runs of the effectful functions *)

Section Runs.

Context (rt : Runtime).

Lemma get_font_run (size : Z) (w : World) :
  get_font rt size w
  = (Ok (font_of rt size), mkWorld (files w) (trace w ++ [Spawn fc_match_cmd])).
Proof.
  unfold get_font, font_of, check_output, Eff.bind, Eff.try_except, Eff.emit.
  simpl. destruct (run_process rt fc_match_cmd) as [rc out|]; simpl.
  - destruct rc; simpl; try reflexivity.
    destruct (path_exists rt (Py.strip out)); reflexivity.
  - reflexivity.
Qed.

Lemma format_asset_id_parts (number : Z) :
  exists part0 part1 more,
    Py.split "-" (format_asset_id number) = part0 :: part1 :: more.
Proof.
  unfold format_asset_id.
  change ("-" ++ Py.format_03d (number mod 1000))
    with (String "-" (Py.format_03d (number mod 1000))).
  rewrite split_app.
  pose proof (split_not_nil "-" (Py.format_03d (number / 1000))) as Ha.
  pose proof (split_not_nil "-" (Py.format_03d (number mod 1000))) as Hb.
  destruct (Py.split "-" (Py.format_03d (number / 1000))) as [|a [|a' l]];
    [congruence | |]; simpl; [|eauto].
  destruct (Py.split "-" (Py.format_03d (number mod 1000))) as [|b l];
    [congruence|]. simpl. eauto.
Qed.

Lemma create_label_run (number : Z) (url : string) (w : World) :
  create_label rt number url w
  = (Ok (label_of rt number url),
     mkWorld (files w) (trace w ++ label_events number url)).
Proof.
  destruct (format_asset_id_parts number) as (p0 & p1 & more & E).
  unfold create_label, label_of, label_text, label_qr, label_events, id_parts.
  unfold Eff.bind at 1. unfold qr_symbol, Eff.bind at 1, Eff.emit. simpl.
  unfold Eff.bind at 1. rewrite get_font_run. simpl.
  unfold text_block. rewrite E. simpl.
  unfold Eff.bind, Eff.lift, text, Eff.emit, Eff.ret. simpl.
  rewrite <- !app_assoc. reflexivity.
Qed.

Lemma render_labels_run (url : string) (numbers : list Z) (w : World) :
  Eff.mapM (fun i => create_label rt i url) numbers w
  = (Ok (map (fun i => label_of rt i url) numbers),
     mkWorld (files w)
       (trace w ++ flat_map (fun i => label_events i url) numbers)).
Proof.
  revert w. induction numbers as [|i rest IH]; intros w; simpl.
  - unfold Eff.ret. rewrite app_nil_r. now destruct w.
  - unfold Eff.bind at 1. rewrite create_label_run.
    unfold Eff.bind at 1. rewrite IH. simpl.
    unfold Eff.ret. now rewrite <- app_assoc.
Qed.

Lemma encoded_app (t1 t2 : list event) :
  encoded (t1 ++ t2) = (encoded t1 ++ encoded t2)%list.
Proof. apply flat_map_app. Qed.

Lemma drawn_app (t1 t2 : list event) :
  drawn (t1 ++ t2) = (drawn t1 ++ drawn t2)%list.
Proof. apply flat_map_app. Qed.

Lemma encoded_labels (url : string) (numbers : list Z) :
  encoded (flat_map (fun i => label_events i url) numbers)
  = map (fun i => url ++ format_asset_id i) numbers.
Proof.
  induction numbers as [|i rest IH]; [reflexivity|].
  cbn [flat_map]. rewrite encoded_app, IH. reflexivity.
Qed.

Lemma drawn_labels (url : string) (numbers : list Z) :
  drawn (flat_map (fun i => label_events i url) numbers)
  = flat_map (fun i => [fst (id_parts i); snd (id_parts i)]) numbers.
Proof.
  induction numbers as [|i rest IH]; [reflexivity|].
  cbn [flat_map]. rewrite drawn_app, IH. reflexivity.
Qed.

(** What [generate_label_strip] does once the labels are rendered. *)
Lemma generate_label_strip_run (start_id end_id : Z) (url : string)
    (print_label : bool) (output_filename : option string) (w : World) :
  let name := image_filename_of output_filename in
  let strip := strip_of rt start_id end_id url in
  let t1 := (trace w ++ rendering start_id end_id url)%list in
  let t2 := (t1 ++ [SaveImage name; Stdout ("Successfully created " ++ name)])%list in
  generate_label_strip rt start_id end_id url print_label output_filename w
  = match save_failure rt name with
    | Some e => (Raise e, mkWorld (files w) t1)
    | None =>
        if print_label
        then
          (Ok tt,
           mkWorld (<[name := strip]> (files w))
             (t2 ++ [Spawn (print_cmd name);
                     Stdout
                       match print_failure name (run_process rt (print_cmd name)) with
                       | None => "Successfully printed " ++ name
                       | Some e => "Error printing " ++ name ++ ": " ++ exn_text rt e
                       end]))
        else (Ok tt, mkWorld (<[name := strip]> (files w)) t2)
    end.
Proof.
  intros name strip t1 t2. subst t2 t1 strip. unfold generate_label_strip.
  fold name. unfold Eff.bind at 1. rewrite render_labels_run.
  fold (labels_of rt start_id end_id url). fold (strip_of rt start_id end_id url).
  fold (rendering start_id end_id url).
  unfold save. destruct (save_failure rt name) as [e|]; [reflexivity|].
  unfold Eff.bind, Eff.write_file, Eff.emit, Eff.try_except, run_checked,
    check_output, Eff.bind, Eff.emit. simpl.
  destruct print_label; simpl.
  - destruct (run_process rt (print_cmd name)) as [rc out|]; simpl.
    + destruct rc; simpl; rewrite <- !app_assoc; reflexivity.
    + rewrite <- !app_assoc. reflexivity.
  - unfold Eff.ret. rewrite <- !app_assoc. reflexivity.
Qed.

(** [main] up to the call of [generate_label_strip]. *)
Lemma main_decoded (inv : Invocation) (w : World) (a b d : string) (s e : Z) :
  opt_start inv = Some a ->
  opt_end inv = Some b ->
  domain_of inv = Some d ->
  d <> EmptyString ->
  asset_id_to_int a = Ok s ->
  asset_id_to_int b = Ok e ->
  main rt inv w
  = if (s >? e)%Z
    then (Raise (SystemExit 2),
          mkWorld (files w)
            (trace w ++ [UsageError
               ("Starting asset ID (" ++ a
                ++ ") cannot be greater than ending asset ID (" ++ b ++ ").")]))
    else generate_label_strip rt s e ("https://" ++ d ++ "/a/")
           (opt_print inv) (opt_output inv) w.
Proof.
  intros Ha Hb Hd Hne Hs He. unfold main, parse_args. rewrite Ha, Hb.
  unfold Eff.bind at 1. unfold Eff.ret at 1. cbn [args_domain args_start args_end
    args_print args_output]. fold (domain_of inv). rewrite Hd.
  destruct d as [|c d']; [congruence|].
  unfold Eff.bind at 1. unfold Eff.try_except, Eff.bind, Eff.lift.
  rewrite Hs, He. unfold Eff.ret at 1.
  destruct (s >? e)%Z; reflexivity.
Qed.

End Runs.

(** ** The ID codec: round trip, rejection, acceptance *)

Lemma split_two_fields (u v : string) :
  Py.contains "-" u = false -> Py.contains "-" v = false ->
  Py.split "-" (u ++ String "-" v) = [u; v].
Proof.
  intros Hu Hv. now rewrite split_app, (split_no_sep _ u Hu), (split_no_sep _ v Hv).
Qed.

Lemma div_mod_1000 (major minor : Z) :
  0 <= minor < 1000 ->
  (major * 1000 + minor) / 1000 = major /\ (major * 1000 + minor) mod 1000 = minor.
Proof.
  intros H. split.
  - symmetry. apply (Z.div_unique _ _ major minor); lia.
  - symmetry. apply (Z.mod_unique _ _ major minor); lia.
Qed.

(** C2. For every text made of three decimal digits, the separator and
    three decimal digits, the parser returns a number and formatting that
    number gives the text back. *)
Theorem asset_id_round_trip (text : string) :
  is_asset_id_text text = true ->
  exists number : Z,
    asset_id_to_int text = Ok number /\ format_asset_id number = text.
Proof.
  intros H.
  destruct text as [|c1 [|c2 [|c3 [|c4 [|c5 [|c6 [|c7 [|c8 r]]]]]]]];
    try discriminate H.
  unfold is_asset_id_text in H.
  apply andb_true_iff in H as [H D7]. apply andb_true_iff in H as [H D6].
  apply andb_true_iff in H as [H D5]. apply andb_true_iff in H as [H E4].
  apply andb_true_iff in H as [H D3]. apply andb_true_iff in H as [D1 D2].
  apply Ascii.eqb_eq in E4 as ->.
  apply is_digit_char in D1 as (k1 & Hk1 & ->).
  apply is_digit_char in D2 as (k2 & Hk2 & ->).
  apply is_digit_char in D3 as (k3 & Hk3 & ->).
  apply is_digit_char in D5 as (k5 & Hk5 & ->).
  apply is_digit_char in D6 as (k6 & Hk6 & ->).
  apply is_digit_char in D7 as (k7 & Hk7 & ->).
  destruct (digits3_spec k1 k2 k3) as (Ha1 & Ha2 & Ha3); try assumption.
  destruct (digits3_spec k5 k6 k7) as (Hb1 & Hb2 & Hb3); try assumption.
  cbv zeta in *.
  set (major := Z.of_nat (100 * k1 + 10 * k2 + k3)) in *.
  set (minor := Z.of_nat (100 * k5 + 10 * k6 + k7)) in *.
  exists (major * 1000 + minor).
  change (String (ascii_of_nat (48 + k1)) _)
    with (digits3 k1 k2 k3 ++ String "-" (digits3 k5 k6 k7)).
  split.
  - rewrite (asset_id_to_int_two_parts _ _ _ (split_two_fields _ _ Ha1 Hb1)).
    now rewrite Ha2, Hb2.
  - unfold format_asset_id.
    destruct (div_mod_1000 major minor) as [-> ->]; [subst minor; lia|].
    rewrite Ha3, Hb3. reflexivity.
Qed.

Lemma asset_id_round_trip_witness :
  is_asset_id_text "001-086" = true
  /\ exists number : Z,
       asset_id_to_int "001-086" = Ok number
       /\ format_asset_id number = "001-086".
Proof.
  split; [reflexivity | apply (asset_id_round_trip "001-086"); reflexivity].
Defined.

Example round_trip_001_086 :
  asset_id_to_int "001-086" = Ok 1086 /\ format_asset_id 1086 = "001-086".
Proof. split; reflexivity. Qed.

(** C3. The parser raises a [ValueError] for every text that the
    separator splits into a number of fields other than two, and for
    every text of two fields one of which [int] rejects. *)
Theorem asset_id_to_int_rejects (text : string) :
  (length (Py.split "-" text) <> 2%nat
   \/ exists part0 part1,
        Py.split "-" text = [part0; part1]
        /\ (Py.parse_int part0 = None \/ Py.parse_int part1 = None)) ->
  exists msg, asset_id_to_int text = Raise (ValueError msg).
Proof.
  intros [H | (part0 & part1 & E & H)].
  - rewrite (asset_id_to_int_other_count _ H). eauto.
  - rewrite (asset_id_to_int_two_parts _ _ _ E).
    destruct (Py.parse_int part0); [|eauto].
    destruct H as [H | H]; [discriminate|]. rewrite H. eauto.
Qed.

Lemma asset_id_to_int_rejects_witness :
  (exists msg, asset_id_to_int "001-002-003" = Raise (ValueError msg))
  /\ (exists msg, asset_id_to_int "001086" = Raise (ValueError msg))
  /\ (exists msg, asset_id_to_int "001-0x6" = Raise (ValueError msg))
  /\ (exists msg, asset_id_to_int "-086" = Raise (ValueError msg)).
Proof.
  repeat split.
  - apply (asset_id_to_int_rejects "001-002-003"). left. vm_compute. lia.
  - apply (asset_id_to_int_rejects "001086"). left. vm_compute. lia.
  - apply (asset_id_to_int_rejects "001-0x6"). right.
    exists "001", "0x6". split; [reflexivity | right; reflexivity].
  - apply (asset_id_to_int_rejects "-086"). right.
    exists EmptyString, "086". split; [reflexivity | left; reflexivity].
Defined.

(** The separator never yields zero fields, so the failing counts are
    one and three or more. *)
Lemma split_length_positive (sep : ascii) (s : string) :
  (1 <= length (Py.split sep s))%nat.
Proof.
  pose proof (split_not_nil sep s). destruct (Py.split sep s); simpl; [congruence | lia].
Qed.

Example rejects_empty_text :
  asset_id_to_int EmptyString
  = Raise (ValueError "Invalid asset ID format: . Asset ID must be in 'XXX-YYY' format.").
Proof. reflexivity. Qed.

(** C10. Every text of two fields that [int] accepts is parsed, to the
    first value times 1000 plus the second, whatever the number of digits,
    the sign or the blanks of the fields. *)
Theorem asset_id_to_int_accepts (text part0 part1 : string) (major minor : Z) :
  Py.split "-" text = [part0; part1] ->
  Py.parse_int part0 = Some major ->
  Py.parse_int part1 = Some minor ->
  asset_id_to_int text = Ok (major * 1000 + minor).
Proof.
  intros E H0 H1. rewrite (asset_id_to_int_two_parts _ _ _ E), H0, H1. reflexivity.
Qed.

Lemma asset_id_to_int_accepts_witness :
  is_asset_id_text "1-2" = false /\ asset_id_to_int "1-2" = Ok 1002.
Proof.
  split; [reflexivity|].
  apply (asset_id_to_int_accepts "1-2" "1" "2" 1 2); reflexivity.
Defined.

Example accepts_sign_blanks_and_long_fields :
  asset_id_to_int " +1 - 2 " = Ok 1002
  /\ asset_id_to_int "0001-00002" = Ok 1002
  /\ asset_id_to_int "12345-6" = Ok 12345006
  /\ asset_id_to_int "1_0-2" = Ok 10002.
Proof. repeat split; reflexivity. Qed.

(** C5. A text whose second field is 1000 or more is parsed, but the
    number no longer formats back to the text: ["001-1500"] gives 2500,
    which formats as ["002-500"]. *)
Theorem minor_overflow_breaks_round_trip :
  (asset_id_to_int "001-1500" = Ok (1 * 1000 + 1500)
   /\ format_asset_id (1 * 1000 + 1500) = "002-500")
  /\ forall (text part0 part1 : string) (major minor : Z),
       Py.split "-" text = [part0; part1] ->
       Py.parse_int part0 = Some major ->
       Py.parse_int part1 = Some minor ->
       1000 <= minor ->
       asset_id_to_int text = Ok (major * 1000 + minor)
       /\ format_asset_id (major * 1000 + minor) <> text.
Proof.
  split; [split; reflexivity|].
  intros text part0 part1 major minor E H0 H1 Hminor. split.
  - rewrite (asset_id_to_int_two_parts _ _ _ E), H0, H1. reflexivity.
  - intros F. set (n := major * 1000 + minor) in *.
    assert (Hlo : 0 <= n mod 1000 < 1000) by (apply Z.mod_pos_bound; lia).
    destruct (format_03d_below_1000 _ Hlo) as [Hdash Hparse].
    unfold format_asset_id in F.
    change ("-" ++ Py.format_03d (n mod 1000))
      with (String "-" (Py.format_03d (n mod 1000))) in F.
    rewrite <- F in E. apply (split_two_last _ _ _ _ _ Hdash) in E.
    subst part1. rewrite Hparse in H1. injection H1 as H1. lia.
Qed.

(** ** The geometry of labels and strips *)

Lemma paste_size (im src : Image) (box : Z * Z) :
  width (Img.paste im src box) = width im
  /\ height (Img.paste im src box) = height im.
Proof. destruct box. split; reflexivity. Qed.

Lemma paste_loop_size (labels : list Image) (strip : Image) (x_cursor : Z) :
  let '(strip', x_cursor') :=
    fold_left
      (fun '(strip, x_cursor) l =>
         (Img.paste strip l (x_cursor, 0), x_cursor + (width l + LABEL_GAP)))
      labels (strip, x_cursor) in
  width strip' = width strip /\ height strip' = height strip
  /\ x_cursor' = x_cursor + (Py.sum (map width labels)
                             + Z.of_nat (length labels) * LABEL_GAP).
Proof.
  revert strip x_cursor. unfold Py.sum.
  enough (G : forall acc strip x_cursor,
             let '(strip', x_cursor') :=
               fold_left
                 (fun '(strip, x_cursor) l =>
                    (Img.paste strip l (x_cursor, 0),
                     x_cursor + (width l + LABEL_GAP)))
                 labels (strip, x_cursor) in
             width strip' = width strip /\ height strip' = height strip
             /\ x_cursor' + acc
                = x_cursor + (fold_left Z.add (map width labels) acc
                              + Z.of_nat (length labels) * LABEL_GAP)).
  { intros strip x_cursor. specialize (G 0 strip x_cursor).
    destruct (fold_left _ labels (strip, x_cursor)) as [s' x'].
    destruct G as (? & ? & ?). repeat split; [assumption..|lia]. }
  induction labels as [|l rest IH]; intros acc strip x_cursor.
  - simpl. repeat split. lia.
  - cbn [fold_left map length].
    specialize (IH (acc + width l) (Img.paste strip l (x_cursor, 0))
                  (x_cursor + (width l + LABEL_GAP))).
    destruct (fold_left _ rest _) as [s' x'].
    destruct IH as (Hw & Hh & Hx). repeat split; [assumption..|].
    unfold LABEL_GAP in *. lia.
Qed.

Lemma assemble_strip_size (labels : list Image) :
  width (assemble_strip labels)
  = Py.sum (map width labels) + Z.of_nat (length labels) * LABEL_GAP
  /\ height (assemble_strip labels) = TAPE_HEIGHT.
Proof.
  unfold assemble_strip.
  pose proof (paste_loop_size labels
                (Img.new (Py.sum (map width labels)
                          + Z.of_nat (length labels) * LABEL_GAP, TAPE_HEIGHT) white)
                0) as P.
  destruct (fold_left _ labels _) as [s' x'].
  destruct P as (Hw & Hh & _). rewrite Hw, Hh. split; reflexivity.
Qed.

Lemma range_length (a b : Z) : length (Py.range a b) = Z.to_nat (b - a).
Proof. unfold Py.range. now rewrite length_map, length_seq. Qed.

Lemma range_nth (a b : Z) (k : nat) :
  (k < Z.to_nat (b - a))%nat ->
  nth_error (Py.range a b) k = Some (a + Z.of_nat k).
Proof.
  intros H. unfold Py.range. rewrite nth_error_map.
  rewrite nth_error_seq.
  destruct (Nat.ltb_spec k (Z.to_nat (b - a))); [reflexivity | lia].
Qed.

(** C1, as the code has it. For every range with [start_id <= end_id]
    the labels are rendered, there is at least one, the width of their
    strip is the sum of their widths plus the gap [LABEL_GAP] once per
    label, and its height is [TAPE_HEIGHT]. *)
Theorem strip_size_of_range (rt : Runtime) (start_id end_id : Z) (url : string)
    (w : World) :
  start_id <= end_id ->
  exists labels w',
    Eff.mapM (fun i => create_label rt i url) (Py.range start_id (end_id + 1)) w
    = (Ok labels, w')
    /\ length labels = Z.to_nat (end_id - start_id + 1)
    /\ labels <> []
    /\ width (assemble_strip labels)
       = Py.sum (map width labels) + Z.of_nat (length labels) * LABEL_GAP
    /\ height (assemble_strip labels) = TAPE_HEIGHT.
Proof.
  intros H. rewrite render_labels_run. eexists _, _. split; [reflexivity|].
  assert (L : length (map (fun i => label_of rt i url)
                        (Py.range start_id (end_id + 1)))
              = Z.to_nat (end_id - start_id + 1)).
  { rewrite length_map, range_length. f_equal. lia. }
  split; [exact L|]. split.
  - intros E. rewrite E in L. simpl in L. lia.
  - apply assemble_strip_size.
Qed.

Lemma strip_size_of_range_witness :
  exists labels w',
    Eff.mapM (fun i => create_label (sample_runtime NoSuchProgram) i "https://box.example.com/a/")
      (Py.range 1000 (1002 + 1)) empty_world
    = (Ok labels, w')
    /\ length labels = Z.to_nat (1002 - 1000 + 1)
    /\ labels <> []
    /\ width (assemble_strip labels)
       = Py.sum (map width labels) + Z.of_nat (length labels) * LABEL_GAP
    /\ height (assemble_strip labels) = TAPE_HEIGHT.
Proof.
  apply (strip_size_of_range (sample_runtime NoSuchProgram) 1000 1002). lia.
Defined.

(** C1, as stated, fails: the strip of the single label of the range
    [1000, 1000] is one gap wider than the label. *)
Lemma strip_width_counts_every_gap :
  exists labels w',
    1000 <= 1000
    /\ Eff.mapM (fun i => create_label (sample_runtime NoSuchProgram) i "https://box.example.com/a/")
         (Py.range 1000 (1000 + 1)) empty_world
       = (Ok labels, w')
    /\ labels <> []
    /\ Py.sum (map width labels) = 154
    /\ width (assemble_strip labels) = 155
    /\ width (assemble_strip labels)
       <> Py.sum (map width labels)
          + (Z.of_nat (length labels) - 1) * LABEL_GAP.
Proof.
  eexists _, _. split; [lia|]. split; [reflexivity|].
  split; [discriminate|]. split; [vm_compute; reflexivity|].
  split; [vm_compute; reflexivity|]. vm_compute. discriminate.
Qed.

(** C9. Every call of [create_label] returns a label whose width is the
    width of its QR symbol plus [ELEMENT_GAP] plus the width of its
    cropped text block, and whose height is [TAPE_HEIGHT]. *)
Theorem label_size (rt : Runtime) (number : Z) (url : string) (w : World) :
  exists unit w',
    create_label rt number url w = (Ok unit, w')
    /\ width unit
       = width (label_qr rt number url) + ELEMENT_GAP + width (label_text rt number)
    /\ height unit = TAPE_HEIGHT.
Proof.
  rewrite create_label_run. eexists _, _. split; [reflexivity|].
  unfold label_of, assemble_unit.
  repeat match goal with
         | |- context [Img.paste ?im ?src ?box] =>
             destruct (paste_size im src box) as [-> ->]
         end.
  split; reflexivity.
Qed.

Example label_size_sample :
  width (label_qr (sample_runtime NoSuchProgram) 1000 "https://box.example.com/a/") = 58
  /\ width (label_text (sample_runtime NoSuchProgram) 1000) = 90
  /\ width (label_of (sample_runtime NoSuchProgram) 1000 "https://box.example.com/a/") = 154.
Proof. repeat split; vm_compute; reflexivity. Qed.

(** ** The command line *)

Section CommandLine.

Context (rt : Runtime).

Lemma main_without_domain (inv : Invocation) (w : World) (a b : string) :
  opt_start inv = Some a ->
  opt_end inv = Some b ->
  domain_of inv = None \/ domain_of inv = Some EmptyString ->
  main rt inv w
  = (Raise (SystemExit 2),
     mkWorld (files w)
       (trace w ++ [UsageError
          "The --domain argument or HOMEBOX_DOMAIN environment variable is required."])).
Proof.
  intros Ha Hb Hd. unfold main, parse_args. rewrite Ha, Hb.
  unfold Eff.bind at 1. unfold Eff.ret at 1.
  cbn [args_domain]. fold (domain_of inv).
  destruct Hd as [-> | ->]; reflexivity.
Qed.

Lemma main_without_range (inv : Invocation) (w : World) :
  opt_start inv = None \/ opt_end inv = None ->
  exists msg,
    main rt inv w
    = (Raise (SystemExit 2), mkWorld (files w) (trace w ++ [UsageError msg])).
Proof.
  intros H. unfold main, parse_args.
  destruct (opt_start inv), (opt_end inv); try (eexists; reflexivity).
  destruct H; discriminate.
Qed.

(** C6. When both IDs decode and the first is greater than the second,
    the process ends with the exit status of a usage error; the files are
    unchanged and the run adds a usage message, and nothing else, to the
    trace. *)
Theorem start_after_end_is_usage_error (inv : Invocation) (w : World)
    (a b : string) (start_int end_int : Z) :
  opt_start inv = Some a ->
  opt_end inv = Some b ->
  asset_id_to_int a = Ok start_int ->
  asset_id_to_int b = Ok end_int ->
  start_int > end_int ->
  exists msg,
    run_main rt inv w = (2, mkWorld (files w) (trace w ++ [UsageError msg]))
    /\ List.filter is_work (trace w ++ [UsageError msg])
       = List.filter is_work (trace w).
Proof.
  intros Ha Hb Hs He Hgt. unfold run_main.
  assert (F : forall msg, List.filter is_work (trace w ++ [UsageError msg])
                          = List.filter is_work (trace w)).
  { intros msg. rewrite List.filter_app. simpl. apply app_nil_r. }
  destruct (domain_of inv) as [[|c d]|] eqn:Hd.
  - rewrite (main_without_domain inv w a b) by auto. eexists. split; [reflexivity | apply F].
  - rewrite (main_decoded rt inv w a b (String c d) start_int end_int)
      by (auto; discriminate).
    replace (start_int >? end_int)%Z with true by (symmetry; apply Z.gtb_lt; lia).
    eexists. split; [reflexivity | apply F].
  - rewrite (main_without_domain inv w a b) by auto. eexists. split; [reflexivity | apply F].
Qed.

(** C8. Without the [--domain] option and without the environment
    variable, the process ends with the exit status of a usage error; the
    files are unchanged and the run adds a usage message, and nothing
    else, to the trace. *)
Theorem missing_domain_is_usage_error (inv : Invocation) (w : World) :
  opt_domain inv = None ->
  env_HOMEBOX_DOMAIN inv = None ->
  exists msg,
    run_main rt inv w = (2, mkWorld (files w) (trace w ++ [UsageError msg]))
    /\ List.filter is_work (trace w ++ [UsageError msg])
       = List.filter is_work (trace w).
Proof.
  intros Hd He. unfold run_main.
  assert (F : forall msg, List.filter is_work (trace w ++ [UsageError msg])
                          = List.filter is_work (trace w)).
  { intros msg. rewrite List.filter_app. simpl. apply app_nil_r. }
  destruct (opt_start inv) as [a|] eqn:Ha; [destruct (opt_end inv) as [b|] eqn:Hb|].
  - rewrite (main_without_domain inv w a b); auto.
    + eexists. split; [reflexivity | apply F].
    + left. unfold domain_of. now rewrite Hd.
  - destruct (main_without_range inv w) as [msg ->]; [auto|].
    eexists. split; [reflexivity | apply F].
  - destruct (main_without_range inv w) as [msg ->]; [auto|].
    eexists. split; [reflexivity | apply F].
Qed.

(** C7. When the range is valid, printing is requested, the image is
    saved and the print utility fails, the failure is reported on the
    console, the saved strip is in the files and the exit status is 0. *)
Theorem print_failure_is_not_fatal (inv : Invocation) (w : World)
    (a b d : string) (start_int end_int : Z) (err : exn) :
  opt_start inv = Some a ->
  opt_end inv = Some b ->
  domain_of inv = Some d ->
  d <> EmptyString ->
  asset_id_to_int a = Ok start_int ->
  asset_id_to_int b = Ok end_int ->
  start_int <= end_int ->
  opt_print inv = true ->
  let name := image_filename_of (opt_output inv) in
  let strip := strip_of rt start_int end_int ("https://" ++ d ++ "/a/") in
  save_failure rt name = None ->
  print_failure name (run_process rt (print_cmd name)) = Some err ->
  exists w',
    run_main rt inv w = (0, w')
    /\ files w' !! name = Some strip
    /\ exists before,
         trace w'
         = (before ++ [SaveImage name;
                       Stdout ("Successfully created " ++ name);
                       Spawn (print_cmd name);
                       Stdout ("Error printing " ++ name ++ ": " ++ exn_text rt err)])%list.
Proof.
  intros Ha Hb Hd Hne Hs He Hle Hp name strip Hsave Hprint.
  unfold run_main.
  rewrite (main_decoded rt inv w a b d start_int end_int) by assumption.
  replace (start_int >? end_int)%Z with false by (symmetry; rewrite Z.gtb_ltb; apply Z.ltb_ge; lia).
  rewrite generate_label_strip_run. fold name. rewrite Hsave, Hp, Hprint.
  eexists. split; [reflexivity|]. split.
  - cbn [files]. apply lookup_insert_eq.
  - cbn [trace]. eexists. rewrite <- app_assoc. reflexivity.
Qed.

End CommandLine.

Lemma print_failure_is_not_fatal_witness :
  let rt := sample_runtime (Exited 1 EmptyString) in
  let inv := sample_invocation "001-000" "001-002" true in
  exists w',
    run_main rt inv empty_world = (0, w')
    /\ files w' !! "asset_labels.png"
       = Some (strip_of rt 1000 1002 "https://box.example.com/a/")
    /\ exists before,
         trace w'
         = (before ++ [SaveImage "asset_labels.png";
                       Stdout "Successfully created asset_labels.png";
                       Spawn (print_cmd "asset_labels.png");
                       Stdout "Error printing asset_labels.png: print failed"])%list.
Proof.
  intros rt inv.
  apply (print_failure_is_not_fatal rt inv empty_world "001-000" "001-002"
           "box.example.com" 1000 1002
           (CalledProcessError 1 (print_cmd "asset_labels.png")));
    try reflexivity; [discriminate | lia].
Defined.

Lemma start_after_end_is_usage_error_witness :
  exists msg,
    run_main (sample_runtime NoSuchProgram)
      (sample_invocation "001-002" "001-000" false) empty_world
    = (2, mkWorld (files empty_world) (trace empty_world ++ [UsageError msg]))
    /\ List.filter is_work (trace empty_world ++ [UsageError msg])
       = List.filter is_work (trace empty_world).
Proof.
  apply (start_after_end_is_usage_error (sample_runtime NoSuchProgram)
           (sample_invocation "001-002" "001-000" false) empty_world
           "001-002" "001-000" 1002 1000); try reflexivity; lia.
Defined.

Lemma missing_domain_is_usage_error_witness :
  exists msg,
    run_main (sample_runtime NoSuchProgram)
      {| opt_start := Some "001-000"; opt_end := Some "001-002";
         opt_domain := None; opt_print := false; opt_output := None;
         env_HOMEBOX_DOMAIN := None |} empty_world
    = (2, mkWorld (files empty_world) (trace empty_world ++ [UsageError msg]))
    /\ List.filter is_work (trace empty_world ++ [UsageError msg])
       = List.filter is_work (trace empty_world).
Proof.
  apply (missing_domain_is_usage_error (sample_runtime NoSuchProgram)); reflexivity.
Defined.

(** ** One label per number of the range *)

Lemma generate_label_strip_trace (rt : Runtime) (start_id end_id : Z)
    (url : string) (print_label : bool) (output_filename : option string)
    (w : World) :
  exists after,
    trace (snd (generate_label_strip rt start_id end_id url print_label
                  output_filename w))
    = (trace w ++ rendering start_id end_id url ++ after)%list
    /\ encoded after = [] /\ drawn after = [].
Proof.
  rewrite generate_label_strip_run. cbv zeta.
  destruct (save_failure rt (image_filename_of output_filename)).
  - exists []. cbn [snd trace]. now rewrite app_nil_r.
  - destruct print_label; cbn [snd trace]; rewrite <- !app_assoc;
      eexists; (split; [reflexivity | split; reflexivity]).
Qed.

(** C4. With the first ID ["001-000"] and the last ID ["001-002"] the
    IDs decode to 1000 and 1002, the range is 1000, 1001, 1002, and the
    run encodes and draws, in this order, the labels ["001-000"],
    ["001-001"] and ["001-002"].  In general the range of [start_id] and
    [end_id] holds [start_id + k] at position [k], for every [k] up to
    [end_id - start_id], and one label is rendered for each of its
    numbers, in its order. *)
Theorem one_label_per_number (rt : Runtime) (inv : Invocation) (w : World)
    (d : string) :
  opt_start inv = Some "001-000" ->
  opt_end inv = Some "001-002" ->
  domain_of inv = Some d ->
  d <> EmptyString ->
  let url := "https://" ++ d ++ "/a/" in
  let w' := snd (main rt inv w) in
  (asset_id_to_int "001-000" = Ok 1000 /\ asset_id_to_int "001-002" = Ok 1002)
  /\ Py.range 1000 (1002 + 1) = [1000; 1001; 1002]
  /\ map format_asset_id [1000; 1001; 1002] = ["001-000"; "001-001"; "001-002"]
  /\ labels_of rt 1000 1002 url
     = [label_of rt 1000 url; label_of rt 1001 url; label_of rt 1002 url]
  /\ encoded (trace w')
     = (encoded (trace w)
        ++ [(url ++ "001-000")%string; (url ++ "001-001")%string;
            (url ++ "001-002")%string])%list
  /\ drawn (trace w')
     = (drawn (trace w) ++ ["001"; "000"; "001"; "001"; "001"; "002"])%list
  /\ forall (start_id end_id : Z) (url' : string) (print_label : bool)
            (output_filename : option string),
       let numbers := Py.range start_id (end_id + 1) in
       let w'' := snd (generate_label_strip rt start_id end_id url' print_label
                         output_filename w) in
       length numbers = Z.to_nat (end_id - start_id + 1)
       /\ (forall k, (k < length numbers)%nat ->
                     nth_error numbers k = Some (start_id + Z.of_nat k))
       /\ Eff.mapM (fun i => create_label rt i url') numbers w
          = (Ok (map (fun i => label_of rt i url') numbers),
             mkWorld (files w) (trace w ++ rendering start_id end_id url'))
       /\ encoded (trace w'')
          = (encoded (trace w)
             ++ map (fun i => (url' ++ format_asset_id i)%string) numbers)%list.
Proof.
  intros Ha Hb Hd Hne url w'.
  assert (G : forall s e u p o,
             exists after,
               trace (snd (generate_label_strip rt s e u p o w))
               = (trace w ++ rendering s e u ++ after)%list
               /\ encoded after = [] /\ drawn after = [])
    by (intros; apply generate_label_strip_trace).
  split; [split; reflexivity|]. split; [reflexivity|]. split; [reflexivity|].
  split; [reflexivity|].
  assert (M : main rt inv w
              = generate_label_strip rt 1000 1002 url (opt_print inv)
                  (opt_output inv) w).
  { now rewrite (main_decoded rt inv w "001-000" "001-002" d 1000 1002). }
  subst w'. rewrite M.
  destruct (G 1000 1002 url (opt_print inv) (opt_output inv))
    as (after & -> & En & Dr).
  split; [|split].
  - rewrite !encoded_app, En, app_nil_r. unfold rendering.
    rewrite encoded_labels. reflexivity.
  - rewrite !drawn_app, Dr, app_nil_r. unfold rendering.
    rewrite drawn_labels. reflexivity.
  - intros start_id end_id url' print_label output_filename numbers w''.
    assert (L : length numbers = Z.to_nat (end_id - start_id + 1)).
    { subst numbers. rewrite range_length. f_equal. lia. }
    split; [exact L|]. split; [|split].
    + intros k Hk. apply range_nth. rewrite <- (range_length start_id (end_id + 1)).
      exact Hk.
    + apply render_labels_run.
    + subst w''. destruct (G start_id end_id url' print_label output_filename)
        as (after' & -> & En' & _).
      rewrite !encoded_app, En', app_nil_r. unfold rendering.
      now rewrite encoded_labels.
Qed.

Lemma one_label_per_number_witness :
  let rt := sample_runtime NoSuchProgram in
  let inv := sample_invocation "001-000" "001-002" false in
  let w' := snd (main rt inv empty_world) in
  encoded (trace w')
  = ["https://box.example.com/a/001-000"; "https://box.example.com/a/001-001";
     "https://box.example.com/a/001-002"]
  /\ drawn (trace w') = ["001"; "000"; "001"; "001"; "001"; "002"].
Proof.
  intros rt inv w'.
  destruct (one_label_per_number rt inv empty_world "box.example.com")
    as (_ & _ & _ & _ & En & Dr & _); try reflexivity; [discriminate|].
  split; [exact En | exact Dr].
Defined.

(** ** Decimal texts of any length *)

Lemma is_digit_facts (c : ascii) :
  is_digit c = true ->
  Py.int_space c = false
  /\ Py.digit_of c = Some (Z.of_nat (Py.code c) - 48)
  /\ 0 <= Z.of_nat (Py.code c) - 48 <= 9
  /\ Ascii.eqb c "-" = false /\ Ascii.eqb c "+" = false
  /\ Ascii.eqb c "_" = false.
Proof.
  intros H. apply is_digit_char in H as (k & Hk & ->).
  do 10 (destruct k as [|k]; [vm_compute; intuition (discriminate || reflexivity)|]).
  exfalso. lia.
Qed.

Lemma scan_all_digits (s : string) (acc : Z) :
  all_digits s = true ->
  Py.scan_digits acc false s = Some (digits_value acc s, EmptyString).
Proof.
  revert acc. induction s as [|c rest IH]; intros acc H; [reflexivity|].
  cbn [all_digits] in H. apply andb_true_iff in H as [Hc Hrest].
  destruct (is_digit_facts c Hc) as (_ & Hd & _).
  cbn [Py.scan_digits digits_value]. rewrite Hd. now apply IH.
Qed.

Lemma parse_int_all_digits (s : string) :
  s <> EmptyString -> all_digits s = true ->
  Py.parse_int s = Some (digits_value 0 s).
Proof.
  intros Hne H. destruct s as [|c rest]; [congruence|].
  cbn [all_digits] in H. apply andb_true_iff in H as [Hc Hrest].
  destruct (is_digit_facts c Hc) as (Hsp & Hd & _ & Hminus & Hplus & _).
  unfold Py.parse_int. cbn [Py.skip_spaces]. rewrite Hsp.
  assert (E : match String c rest with
              | String "+" r => (1, r)
              | String "-" r => (-1, r)
              | _ => (1, String c rest)
              end = (1, String c rest)).
  { destruct c as [[] [] [] [] [] [] [] []]; try reflexivity; discriminate. }
  rewrite E, Hd, (scan_all_digits rest _ Hrest). cbn [Py.all_spaces digits_value].
  now rewrite Z.mul_1_l.
Qed.

Lemma all_digits_no_dash (s : string) :
  all_digits s = true -> Py.contains "-" s = false.
Proof.
  induction s as [|c rest IH]; intros H; [reflexivity|].
  cbn [all_digits] in H. apply andb_true_iff in H as [Hc Hrest].
  destruct (is_digit_facts c Hc) as (_ & _ & _ & Hminus & _).
  cbn [Py.contains]. rewrite Ascii.eqb_sym, Hminus. now apply IH.
Qed.

Lemma all_digits_app (s t : string) :
  all_digits (s ++ t) = all_digits s && all_digits t.
Proof.
  induction s as [|c rest IH]; [reflexivity|].
  simpl. now rewrite IH, andb_assoc.
Qed.

Lemma digits_value_app (s t : string) (acc : Z) :
  digits_value acc (s ++ t) = digits_value (digits_value acc s) t.
Proof.
  revert acc. induction s as [|c rest IH]; intros acc; [reflexivity|].
  simpl. apply IH.
Qed.

Lemma zeros_digits (k : nat) :
  all_digits (Py.zeros k) = true /\ digits_value 0 (Py.zeros k) = 0.
Proof. induction k as [|k [IH1 IH2]]; split; try reflexivity; assumption. Qed.

Lemma uint_digits (d : Decimal.uint) :
  all_digits (NilEmpty.string_of_uint d) = true
  /\ forall acc, digits_value acc (NilEmpty.string_of_uint d) = uint_value acc d.
Proof.
  induction d as [|d [IH1 IH2]|d [IH1 IH2]|d [IH1 IH2]|d [IH1 IH2]|d [IH1 IH2]
                  |d [IH1 IH2]|d [IH1 IH2]|d [IH1 IH2]|d [IH1 IH2]|d [IH1 IH2]];
    (split; [try reflexivity; exact IH1 | try reflexivity; intros acc; apply IH2]).
Qed.

Lemma uint_value_acc (d : Decimal.uint) (acc : positive) :
  uint_value (Z.pos acc) d = Z.pos (Pos.of_uint_acc d acc).
Proof.
  revert acc. induction d; intros acc; cbn [uint_value Pos.of_uint_acc];
    [reflexivity|..];
    match goal with
    | IH : forall acc, _ |- _ => rewrite <- IH; f_equal; lia
    end.
Qed.

Lemma uint_value_of_uint (d : Decimal.uint) :
  uint_value 0 d = Z.of_N (Pos.of_uint d).
Proof.
  induction d; cbn [uint_value Pos.of_uint]; [reflexivity| exact IHd |..];
    apply (uint_value_acc d).
Qed.

Lemma dec_digits (n : N) :
  Py.dec n <> EmptyString
  /\ all_digits (Py.dec n) = true
  /\ digits_value 0 (Py.dec n) = Z.of_N n.
Proof.
  unfold Py.dec.
  assert (E : NilZero.string_of_uint (N.to_uint n)
              = NilEmpty.string_of_uint (N.to_uint n)).
  { unfold NilZero.string_of_uint. destruct (N.to_uint n) eqn:Hu; try reflexivity.
    destruct n as [|p]; [discriminate|]. now apply DecimalPos.Unsigned.to_uint_nonnil in Hu. }
  rewrite E. destruct (uint_digits (N.to_uint n)) as [H1 H2].
  split; [|split; [exact H1|]].
  - destruct n as [|p]; [discriminate|]. cbn [N.to_uint].
    pose proof (DecimalPos.Unsigned.to_uint_nonnil p).
    destruct (Pos.to_uint p); [congruence|discriminate..].
  - rewrite H2, uint_value_of_uint.
    change (Pos.of_uint (N.to_uint n)) with (N.of_uint (N.to_uint n)).
    now rewrite DecimalN.Unsigned.of_to.
Qed.

(** What [format_03d] gives a number that is not negative: decimal digits
    only, which [int] reads back as the number. *)
Lemma format_03d_nonneg (z : Z) :
  0 <= z ->
  all_digits (Py.format_03d z) = true /\ Py.parse_int (Py.format_03d z) = Some z.
Proof.
  intros Hz. unfold Py.format_03d.
  replace (z <? 0)%Z with false by (symmetry; apply Z.ltb_ge; lia).
  destruct (dec_digits (Z.abs_N z)) as (Hne & Hd & Hv).
  destruct (zeros_digits (3 - String.length (Py.dec (Z.abs_N z)))) as [Hz1 Hz2].
  assert (A : all_digits (Py.zeros (3 - String.length (Py.dec (Z.abs_N z)))
                          ++ Py.dec (Z.abs_N z)) = true)
    by now rewrite all_digits_app, Hz1, Hd.
  split; [exact A|].
  rewrite parse_int_all_digits; [|
    destruct (Py.zeros _); [exact Hne | discriminate] | exact A].
  rewrite digits_value_app, Hz2, Hv. f_equal. lia.
Qed.

(** ** The ID codec beyond the display form *)



Lemma split_leading_sep (sep : ascii) (s : string) :
  Py.split sep (String sep s) = EmptyString :: Py.split sep s.
Proof. cbn [Py.split]. now rewrite Ascii.eqb_refl. Qed.

(** X2. The text of a negative number starts with the separator, so the
    parser rejects it: it has three fields or more. *)
Theorem format_negative_is_rejected (number : Z) :
  number < 0 ->
  (3 <= length (Py.split "-" (format_asset_id number)))%nat
  /\ asset_id_to_int (format_asset_id number)
     = Raise (ValueError ("Invalid asset ID format: " ++ format_asset_id number
                          ++ ". Asset ID must be in 'XXX-YYY' format.")).
Proof.
  intros H.
  assert (L : (3 <= length (Py.split "-" (format_asset_id number)))%nat).
  { unfold format_asset_id, Py.format_03d at 1.
    replace (number / 1000 <? 0)%Z with true
      by (symmetry; apply Z.ltb_lt; apply Z.div_lt_upper_bound; lia).
    set (body := Py.zeros (2 - String.length (Py.dec (Z.abs_N (number / 1000))))
                 ++ Py.dec (Z.abs_N (number / 1000))).
    set (low := Py.format_03d (number mod 1000)).
    change (String "-" body ++ "-" ++ low)
      with (String "-" (body ++ String "-" low)).
    rewrite split_leading_sep, split_app. cbn [length]. rewrite length_app.
    pose proof (split_length_positive "-" body).
    pose proof (split_length_positive "-" low). lia. }
  split; [exact L|]. apply asset_id_to_int_other_count. lia.
Qed.

Lemma format_negative_is_rejected_witness :
  (3 <= length (Py.split "-" (format_asset_id (-1))))%nat
  /\ asset_id_to_int (format_asset_id (-1))
     = Raise (ValueError ("Invalid asset ID format: " ++ format_asset_id (-1)
                          ++ ". Asset ID must be in 'XXX-YYY' format.")).
Proof. apply (format_negative_is_rejected (-1)). lia. Defined.

Lemma is_digit_of_nat (k : nat) :
  (k < 10)%nat -> is_digit (ascii_of_nat (48 + k)) = true.
Proof.
  intros H. do 10 (destruct k as [|k]; [reflexivity|]). exfalso. lia.
Qed.

Lemma display_text_digits (text : string) :
  is_asset_id_text text = true ->
  exists a b c d e f : nat,
    ((a < 10 /\ b < 10 /\ c < 10) /\ (d < 10 /\ e < 10 /\ f < 10))%nat
    /\ text = digits3 a b c ++ String "-" (digits3 d e f).
Proof.
  intros H.
  destruct text as [|c1 [|c2 [|c3 [|c4 [|c5 [|c6 [|c7 [|c8 r]]]]]]]];
    try discriminate H.
  unfold is_asset_id_text in H.
  apply andb_true_iff in H as [H D7]. apply andb_true_iff in H as [H D6].
  apply andb_true_iff in H as [H D5]. apply andb_true_iff in H as [H E4].
  apply andb_true_iff in H as [H D3]. apply andb_true_iff in H as [D1 D2].
  apply Ascii.eqb_eq in E4 as ->.
  apply is_digit_char in D1 as (k1 & Hk1 & ->).
  apply is_digit_char in D2 as (k2 & Hk2 & ->).
  apply is_digit_char in D3 as (k3 & Hk3 & ->).
  apply is_digit_char in D5 as (k5 & Hk5 & ->).
  apply is_digit_char in D6 as (k6 & Hk6 & ->).
  apply is_digit_char in D7 as (k7 & Hk7 & ->).
  exists k1, k2, k3, k5, k6, k7. repeat split; assumption.
Qed.

Lemma display_text_value (a b c d e f : nat) :
  (a < 10 /\ b < 10 /\ c < 10)%nat -> (d < 10 /\ e < 10 /\ f < 10)%nat ->
  asset_id_to_int (digits3 a b c ++ String "-" (digits3 d e f))
  = Ok (Z.of_nat (100 * a + 10 * b + c) * 1000 + Z.of_nat (100 * d + 10 * e + f)).
Proof.
  intros (Ha & Hb & Hc) (Hd & He & Hf).
  destruct (digits3_spec a b c) as (N1 & P1 & _); try assumption.
  destruct (digits3_spec d e f) as (N2 & P2 & _); try assumption.
  cbv zeta in *.
  rewrite (asset_id_to_int_two_parts _ _ _ (split_two_fields _ _ N1 N2)).
  now rewrite P1, P2.
Qed.

(** X3. Every number from 0 to 999999 is formatted in the display form:
    three digits, the separator, three digits. *)
Theorem format_is_display_text (number : Z) :
  0 <= number < 1000000 ->
  is_asset_id_text (format_asset_id number) = true.
Proof.
  intros H.
  assert (F : forall z, 0 <= z < 1000 ->
                exists a b c, (a < 10 /\ b < 10 /\ c < 10)%nat
                              /\ Py.format_03d z = digits3 a b c).
  { intros z Hz.
    exists (Z.to_nat (z / 100)), (Z.to_nat (z / 10 mod 10)), (Z.to_nat (z mod 10)).
    assert (B1 : 0 <= z / 100 < 10)
      by (split; [apply Z.div_pos; lia | apply Z.div_lt_upper_bound; lia]).
    assert (B2 : 0 <= z / 10 mod 10 < 10) by (apply Z.mod_pos_bound; lia).
    assert (B3 : 0 <= z mod 10 < 10) by (apply Z.mod_pos_bound; lia).
    split; [lia|].
    destruct (digits3_spec (Z.to_nat (z / 100)) (Z.to_nat (z / 10 mod 10))
                (Z.to_nat (z mod 10))) as (_ & _ & E); try lia.
    cbv zeta in E. rewrite <- E. f_equal.
    pose proof (Z.div_mod z 10). pose proof (Z.div_mod (z / 10) 10).
    assert (D : z / 100 = z / 10 / 10)
      by (rewrite Z.div_div by lia; reflexivity).
    rewrite D in *. lia. }
  destruct (F (number / 1000)) as (a & b & c & (Ha & Hb & Hc) & E1).
  { split; [apply Z.div_pos; lia | apply Z.div_lt_upper_bound; lia]. }
  destruct (F (number mod 1000)) as (d & e & f & (Hd & He & Hf) & E2).
  { apply Z.mod_pos_bound; lia. }
  unfold format_asset_id. rewrite E1, E2.
  change (digits3 a b c ++ "-" ++ digits3 d e f)
    with (String (ascii_of_nat (48 + a)) (String (ascii_of_nat (48 + b))
            (String (ascii_of_nat (48 + c)) (String "-"
               (String (ascii_of_nat (48 + d)) (String (ascii_of_nat (48 + e))
                  (String (ascii_of_nat (48 + f)) EmptyString))))))).
  unfold is_asset_id_text. now rewrite !is_digit_of_nat by assumption.
Qed.

Lemma format_is_display_text_witness :
  is_asset_id_text (format_asset_id 999999) = true.
Proof. apply (format_is_display_text 999999). lia. Defined.

(** X4. Two different texts in the display form parse to different
    numbers. *)
Theorem display_texts_parse_apart (text1 text2 : string) :
  is_asset_id_text text1 = true ->
  is_asset_id_text text2 = true ->
  text1 <> text2 ->
  asset_id_to_int text1 <> asset_id_to_int text2.
Proof.
  intros H1 H2 Hne P.
  apply display_text_digits in H1 as (a & b & c & d & e & f & [A1 A2] & ->).
  apply display_text_digits in H2 as (a' & b' & c' & d' & e' & f' & [B1 B2] & ->).
  rewrite !display_text_value in P by assumption.
  injection P as P.
  assert (a = a' /\ b = b' /\ c = c' /\ d = d' /\ e = e' /\ f = f') by lia.
  apply Hne. intuition congruence.
Qed.

Lemma display_texts_parse_apart_witness :
  is_asset_id_text "001-086" = true
  /\ is_asset_id_text "001-087" = true
  /\ asset_id_to_int "001-086" <> asset_id_to_int "001-087".
Proof.
  split; [reflexivity|]. split; [reflexivity|].
  apply (display_texts_parse_apart "001-086" "001-087");
    [reflexivity | reflexivity | discriminate].
Defined.

Section SplitFields.

Variable sep : ascii.

Lemma split_fields_no_sep (s : string) :
  Forall (fun field => Py.contains sep field = false) (Py.split sep s).
Proof.
  induction s as [|c rest IH]; cbn [Py.split].
  - constructor; [reflexivity | constructor].
  - destruct (Ascii.eqb c sep) eqn:E.
    + constructor; [reflexivity | exact IH].
    + destruct (Py.split sep rest) as [|p ps]; inversion IH; subst.
      * constructor; [|constructor]. cbn [Py.contains].
        now rewrite Ascii.eqb_sym, E.
      * constructor; [|assumption]. cbn [Py.contains].
        rewrite Ascii.eqb_sym, E. assumption.
Qed.

End SplitFields.

Lemma skip_spaces_no_dash (s : string) :
  Py.contains "-" s = false -> Py.contains "-" (Py.skip_spaces s) = false.
Proof.
  induction s as [|c rest IH]; intros H; [reflexivity|].
  cbn [Py.skip_spaces]. destruct (Py.int_space c); [|exact H].
  apply IH. cbn [Py.contains] in H. now apply orb_false_iff in H as [_ H].
Qed.

Lemma digit_of_range (c : ascii) (d : Z) : Py.digit_of c = Some d -> 0 <= d.
Proof.
  unfold Py.digit_of.
  destruct ((48 <=? Py.code c)%nat && (Py.code c <=? 57)%nat) eqn:E; [|discriminate].
  intros [= <-]. apply andb_true_iff in E as [E _]. apply Nat.leb_le in E. lia.
Qed.

Lemma scan_digits_nonneg (s : string) (acc : Z) (u : bool) (v : Z) (rest : string) :
  0 <= acc -> Py.scan_digits acc u s = Some (v, rest) -> 0 <= v.
Proof.
  revert acc u. induction s as [|c s' IH]; intros acc u Hacc H.
  - cbn [Py.scan_digits] in H. destruct u; [discriminate|]. injection H as <- _. exact Hacc.
  - cbn [Py.scan_digits] in H. destruct (Py.digit_of c) as [d|] eqn:D.
    + apply digit_of_range in D. eapply IH; [|exact H]. lia.
    + destruct u; [discriminate|]. destruct (Ascii.eqb c "_").
      * apply (IH _ _ Hacc H).
      * injection H as <- _. exact Hacc.
Qed.

Lemma parse_int_no_dash_nonneg (s : string) (v : Z) :
  Py.contains "-" s = false -> Py.parse_int s = Some v -> 0 <= v.
Proof.
  intros Hs H. apply skip_spaces_no_dash in Hs. unfold Py.parse_int in H.
  destruct (Py.skip_spaces s) as [|c r] eqn:E; [discriminate|].
  assert (Hc : Ascii.eqb c "-" = false).
  { cbn [Py.contains] in Hs. apply orb_false_iff in Hs as [Hs _].
    now rewrite Ascii.eqb_sym. }
  assert (G : forall body : string,
             match body with
             | EmptyString => None
             | String c0 r0 =>
                 match Py.digit_of c0 with
                 | None => None
                 | Some d =>
                     match Py.scan_digits d false r0 with
                     | Some (v0, rest) =>
                         if Py.all_spaces rest then Some (1 * v0) else None
                     | None => None
                     end
                 end
             end = Some v -> 0 <= v).
  { intros [|c0 r0] G; [discriminate|].
    destruct (Py.digit_of c0) as [d|] eqn:D; [|discriminate].
    destruct (Py.scan_digits d false r0) as [[v0 rest]|] eqn:S; [|discriminate].
    destruct (Py.all_spaces rest); [|discriminate]. injection G as <-.
    apply digit_of_range in D. apply scan_digits_nonneg in S; lia. }
  destruct (Ascii.eqb c "+") eqn:Hp.
  - apply Ascii.eqb_eq in Hp as ->. exact (G r H).
  - assert (E' : match String c r with
                 | String "+" r' => (1, r')
                 | String "-" r' => (-1, r')
                 | _ => (1, String c r)
                 end = (1, String c r)).
    { destruct c as [[] [] [] [] [] [] [] []]; try reflexivity; discriminate. }
    rewrite E' in H. exact (G (String c r) H).
Qed.

(** X5. The parser never returns a negative number: a field holds no
    separator, so it holds no minus sign. *)
Theorem asset_id_to_int_nonneg (text : string) (number : Z) :
  asset_id_to_int text = Ok number -> 0 <= number.
Proof.
  intros H.
  destruct (Py.split "-" text) as [|p0 [|p1 [|p2 l]]] eqn:E;
    try (rewrite asset_id_to_int_other_count in H
           by (rewrite E; cbn [length]; lia); discriminate H).
  rewrite (asset_id_to_int_two_parts _ _ _ E) in H.
  pose proof (split_fields_no_sep "-" text) as F. rewrite E in F.
  inversion F as [|? ? F0 F']; subst. inversion F' as [|? ? F1 _]; subst.
  destruct (Py.parse_int p0) as [major|] eqn:P0; [|discriminate].
  destruct (Py.parse_int p1) as [minor|] eqn:P1; [|discriminate].
  injection H as <-.
  apply (parse_int_no_dash_nonneg _ _ F0) in P0.
  apply (parse_int_no_dash_nonneg _ _ F1) in P1. lia.
Qed.

Lemma asset_id_to_int_nonneg_witness :
  asset_id_to_int " 1 -086" = Ok 1086 /\ 0 <= 1086.
Proof.
  split; [reflexivity|].
  apply (asset_id_to_int_nonneg " 1 -086" 1086). reflexivity.
Defined.

(** ** Fonts and sub-processes *)

Section Processes.

Context (rt : Runtime).

(** X6. When the font query fails to start, exits with a status other
    than 0, or names a path that does not exist, [get_font] returns the
    built-in font; it raises nothing and runs the query once. *)
Theorem get_font_falls_back (size : Z) (w : World) :
  (run_process rt fc_match_cmd = NoSuchProgram
   \/ (exists rc out, run_process rt fc_match_cmd = Exited rc out /\ rc <> 0)
   \/ (exists out, run_process rt fc_match_cmd = Exited 0 out
                   /\ path_exists rt (Py.strip out) = false)) ->
  get_font rt size w
  = (Ok (load_default rt), mkWorld (files w) (trace w ++ [Spawn fc_match_cmd])).
Proof.
  intros H. rewrite get_font_run. unfold font_of.
  destruct H as [-> | [(rc & out & -> & Hrc) | (out & -> & Hp)]].
  - reflexivity.
  - destruct rc; [congruence | reflexivity | reflexivity].
  - now rewrite Hp.
Qed.

(** X7. When the font query exits with status 0 and the path it prints,
    stripped of surrounding blanks, exists, [get_font] returns the font
    of that path at the requested size. *)
Theorem get_font_finds (size : Z) (w : World) (out : string) :
  run_process rt fc_match_cmd = Exited 0 out ->
  path_exists rt (Py.strip out) = true ->
  get_font rt size w
  = (Ok (truetype rt (Py.strip out) size),
     mkWorld (files w) (trace w ++ [Spawn fc_match_cmd])).
Proof.
  intros H Hp. rewrite get_font_run. unfold font_of. now rewrite H, Hp.
Qed.

Lemma spawned_app (t1 t2 : list event) :
  spawned (t1 ++ t2) = (spawned t1 ++ spawned t2)%list.
Proof. apply flat_map_app. Qed.

Lemma spawned_labels (url : string) (numbers : list Z) :
  spawned (flat_map (fun i => label_events i url) numbers)
  = repeat fc_match_cmd (length numbers).
Proof.
  induction numbers as [|i rest IH]; [reflexivity|].
  cbn [flat_map]. rewrite spawned_app, IH. reflexivity.
Qed.

(** X8. The sub-processes of [generate_label_strip] are one font query
    for each number of the range and, after them, the print command if
    printing is requested and the image was saved; nothing else is
    started. *)
Theorem sub_processes_of_strip (start_id end_id : Z) (url : string)
    (print_label : bool) (output_filename : option string) (w : World) :
  let name := image_filename_of output_filename in
  let w' := snd (generate_label_strip rt start_id end_id url print_label
                   output_filename w) in
  spawned (trace w')
  = (spawned (trace w)
     ++ repeat fc_match_cmd (length (Py.range start_id (end_id + 1)))
     ++ match save_failure rt name with
        | None => if print_label then [print_cmd name] else []
        | Some _ => []
        end)%list.
Proof.
  intros name w'. subst w'. rewrite generate_label_strip_run. cbv zeta. fold name.
  destruct (save_failure rt name).
  - cbn [snd trace]. rewrite spawned_app. unfold rendering.
    now rewrite spawned_labels, app_nil_r.
  - destruct print_label; cbn [snd trace]; rewrite !spawned_app; unfold rendering;
      rewrite spawned_labels; rewrite <- ?app_assoc; reflexivity.
Qed.

End Processes.

Lemma get_font_falls_back_witness :
  get_font (sample_runtime NoSuchProgram) 32 empty_world
  = (Ok tt, mkWorld (files empty_world) (trace empty_world ++ [Spawn fc_match_cmd])).
Proof.
  apply (get_font_falls_back (sample_runtime NoSuchProgram) 32 empty_world).
  left. reflexivity.
Defined.

Lemma get_font_finds_witness :
  get_font font_runtime 32 empty_world
  = (Ok "/fonts/Heavy.ttf",
     mkWorld (files empty_world) (trace empty_world ++ [Spawn fc_match_cmd])).
Proof.
  apply (get_font_finds font_runtime 32 empty_world font_query_output);
    reflexivity.
Defined.

(** ** The runs of [main] *)

Lemma string_append_assoc (s t u : string) : (s ++ t) ++ u = s ++ t ++ u.
Proof.
  induction s as [|c s' IH]; [reflexivity|].
  change (String c ((s' ++ t) ++ u) = String c (s' ++ t ++ u)). now f_equal.
Qed.

Section MainRuns.

Context (rt : Runtime).

Lemma asset_id_to_int_raises (text : string) (e : exn) :
  asset_id_to_int text = Raise e ->
  exists reason,
    e = ValueError ("Invalid asset ID format: " ++ text ++ ". " ++ reason).
Proof.
  intros H.
  destruct (Py.split "-" text) as [|p0 [|p1 [|p2 l]]] eqn:E;
    try (rewrite asset_id_to_int_other_count in H
           by (rewrite E; cbn [length]; lia);
         injection H as <-; eauto).
  rewrite (asset_id_to_int_two_parts _ _ _ E) in H.
  destruct (Py.parse_int p0); [destruct (Py.parse_int p1)|];
    [discriminate | injection H as <-; eauto..].
Qed.

(** X9. When the domain is given and one of the two IDs does not
    parse, the process ends with exit status 2 and the usage message is
    the message of the first ID that fails; the files are unchanged and
    nothing is rendered. *)
Theorem malformed_id_is_usage_error (inv : Invocation) (w : World)
    (a b d msg : string) :
  opt_start inv = Some a ->
  opt_end inv = Some b ->
  domain_of inv = Some d ->
  d <> EmptyString ->
  (asset_id_to_int a = Raise (ValueError msg)
   \/ (exists start_int, asset_id_to_int a = Ok start_int)
      /\ asset_id_to_int b = Raise (ValueError msg)) ->
  run_main rt inv w = (2, mkWorld (files w) (trace w ++ [UsageError msg])).
Proof.
  intros Ha Hb Hd Hne H. unfold run_main, main, parse_args. rewrite Ha, Hb.
  unfold Eff.bind at 1. unfold Eff.ret at 1.
  cbn [args_domain args_start args_end]. fold (domain_of inv). rewrite Hd.
  destruct d as [|c d']; [congruence|].
  unfold Eff.bind at 1. unfold Eff.try_except, Eff.bind, Eff.lift.
  destruct H as [H | [[start_int Hs] H]].
  - rewrite H. reflexivity.
  - rewrite Hs, H. reflexivity.
Qed.

(** X10. With a valid range, no printing and a save that succeeds, the
    process ends with exit status 0: the labels are rendered, the strip is
    stored under the output name (["asset_labels.png"] when the name is
    absent or empty), the other files are unchanged, and the console gets
    the confirmation. *)
Theorem main_saves_the_strip (inv : Invocation) (w : World)
    (a b d : string) (start_int end_int : Z) :
  opt_start inv = Some a ->
  opt_end inv = Some b ->
  domain_of inv = Some d ->
  d <> EmptyString ->
  asset_id_to_int a = Ok start_int ->
  asset_id_to_int b = Ok end_int ->
  start_int <= end_int ->
  opt_print inv = false ->
  let name := match opt_output inv with
              | None | Some EmptyString => "asset_labels.png"
              | Some given => given
              end in
  let url := "https://" ++ d ++ "/a/" in
  save_failure rt name = None ->
  run_main rt inv w
  = (0, mkWorld (<[name := strip_of rt start_int end_int url]> (files w))
          (trace w ++ rendering start_int end_int url
           ++ [SaveImage name; Stdout ("Successfully created " ++ name)]))
  /\ forall other, other <> name ->
       files (snd (run_main rt inv w)) !! other = files w !! other.
Proof.
  intros Ha Hb Hd Hne Hs He Hle Hp name url Hsave.
  assert (R : run_main rt inv w
              = (0, mkWorld (<[name := strip_of rt start_int end_int url]> (files w))
                      (trace w ++ rendering start_int end_int url
                       ++ [SaveImage name; Stdout ("Successfully created " ++ name)]))).
  { unfold run_main.
    rewrite (main_decoded rt inv w a b d start_int end_int) by assumption.
    replace (start_int >? end_int)%Z with false
      by (symmetry; rewrite Z.gtb_ltb; apply Z.ltb_ge; lia).
    rewrite generate_label_strip_run.
    change (image_filename_of (opt_output inv)) with name.
    rewrite Hsave, Hp. cbn [exit_status]. now rewrite <- app_assoc. }
  split; [exact R|].
  intros other Hother. rewrite R. cbn [snd files]. now apply lookup_insert_ne.
Qed.

(** X11. With a valid range, printing requested, a save that succeeds
    and a print utility that exits with status 0, the process ends with
    exit status 0 and the console gets both confirmations, the second one
    after the print command ran. *)
Theorem main_prints_the_strip (inv : Invocation) (w : World)
    (a b d out : string) (start_int end_int : Z) :
  opt_start inv = Some a ->
  opt_end inv = Some b ->
  domain_of inv = Some d ->
  d <> EmptyString ->
  asset_id_to_int a = Ok start_int ->
  asset_id_to_int b = Ok end_int ->
  start_int <= end_int ->
  opt_print inv = true ->
  let name := image_filename_of (opt_output inv) in
  let url := "https://" ++ d ++ "/a/" in
  save_failure rt name = None ->
  run_process rt (print_cmd name) = Exited 0 out ->
  run_main rt inv w
  = (0, mkWorld (<[name := strip_of rt start_int end_int url]> (files w))
          (trace w ++ rendering start_int end_int url
           ++ [SaveImage name; Stdout ("Successfully created " ++ name);
               Spawn (print_cmd name);
               Stdout ("Successfully printed " ++ name)])).
Proof.
  intros Ha Hb Hd Hne Hs He Hle Hp name url Hsave Hprint. unfold run_main.
  rewrite (main_decoded rt inv w a b d start_int end_int) by assumption.
  replace (start_int >? end_int)%Z with false
    by (symmetry; rewrite Z.gtb_ltb; apply Z.ltb_ge; lia).
  rewrite generate_label_strip_run. fold name. rewrite Hsave, Hp, Hprint.
  cbn [exit_status print_failure]. now rewrite <- !app_assoc.
Qed.

(** X12. When saving the image raises, the exception leaves [main]
    unhandled: the exit status is that of the exception, the labels were
    rendered before, and neither a confirmation nor the print command
    follows. *)
Theorem save_failure_is_fatal (inv : Invocation) (w : World)
    (a b d : string) (start_int end_int : Z) (e : exn) :
  opt_start inv = Some a ->
  opt_end inv = Some b ->
  domain_of inv = Some d ->
  d <> EmptyString ->
  asset_id_to_int a = Ok start_int ->
  asset_id_to_int b = Ok end_int ->
  start_int <= end_int ->
  save_failure rt (image_filename_of (opt_output inv)) = Some e ->
  fst (main rt inv w) = Raise e
  /\ fst (run_main rt inv w) = exit_status (Raise e)
  /\ trace (snd (main rt inv w))
     = (trace w ++ rendering start_int end_int ("https://" ++ d ++ "/a/"))%list.
Proof.
  intros Ha Hb Hd Hne Hs He Hle Hsave.
  assert (R : main rt inv w
              = (Raise e,
                 mkWorld (files w)
                   (trace w ++ rendering start_int end_int ("https://" ++ d ++ "/a/")))).
  { rewrite (main_decoded rt inv w a b d start_int end_int) by assumption.
    replace (start_int >? end_int)%Z with false
      by (symmetry; rewrite Z.gtb_ltb; apply Z.ltb_ge; lia).
    rewrite generate_label_strip_run. now rewrite Hsave. }
  unfold run_main. rewrite R. repeat split.
Qed.


(** X14. The payload of every QR symbol is ["https://"], the domain,
    ["/a/"] and the formatted number; the domain is the [--domain] option
    when it is given, whatever the environment variable holds, and the
    environment variable otherwise. *)
Theorem payloads_use_the_domain (inv : Invocation) (w : World)
    (a b d : string) (start_int end_int : Z) :
  opt_start inv = Some a ->
  opt_end inv = Some b ->
  (opt_domain inv = Some d
   \/ opt_domain inv = None /\ env_HOMEBOX_DOMAIN inv = Some d) ->
  d <> EmptyString ->
  asset_id_to_int a = Ok start_int ->
  asset_id_to_int b = Ok end_int ->
  start_int <= end_int ->
  encoded (trace (snd (main rt inv w)))
  = (encoded (trace w)
     ++ map (fun i => ("https://" ++ d ++ "/a/" ++ format_asset_id i)%string)
          (Py.range start_int (end_int + 1)))%list.
Proof.
  intros Ha Hb Hd Hne Hs He Hle.
  assert (D : domain_of inv = Some d).
  { unfold domain_of. destruct Hd as [-> | [-> ->]]; reflexivity. }
  rewrite (main_decoded rt inv w a b d start_int end_int) by assumption.
  replace (start_int >? end_int)%Z with false
    by (symmetry; rewrite Z.gtb_ltb; apply Z.ltb_ge; lia).
  rewrite generate_label_strip_run. cbv zeta.
  assert (R : encoded (rendering start_int end_int ("https://" ++ d ++ "/a/"))
              = map (fun i => ("https://" ++ d ++ "/a/" ++ format_asset_id i)%string)
                  (Py.range start_int (end_int + 1))).
  { unfold rendering. rewrite encoded_labels. apply map_ext. intros i.
    now rewrite !string_append_assoc. }
  destruct (save_failure rt _); [|destruct (opt_print inv)];
    cbn [snd trace]; rewrite !encoded_app, R; cbn [encoded flat_map];
    now rewrite ?app_nil_r.
Qed.

(** X15. An empty [--domain] option is a usage error even when the
    environment variable holds a domain: the option, once given, is the
    value that is tested. *)
Theorem empty_domain_option_is_usage_error (inv : Invocation) (w : World)
    (a b : string) :
  opt_start inv = Some a ->
  opt_end inv = Some b ->
  opt_domain inv = Some EmptyString ->
  run_main rt inv w
  = (2, mkWorld (files w)
          (trace w ++ [UsageError
             "The --domain argument or HOMEBOX_DOMAIN environment variable is required."])).
Proof.
  intros Ha Hb Hd. unfold run_main.
  rewrite (main_without_domain rt inv w a b); auto.
  right. unfold domain_of. now rewrite Hd.
Qed.

End MainRuns.

Lemma malformed_id_is_usage_error_witness :
  run_main (sample_runtime NoSuchProgram)
    (sample_invocation "001-000" "001_002" false) empty_world
  = (2, mkWorld (files empty_world)
          (trace empty_world
           ++ [UsageError
                 "Invalid asset ID format: 001_002. Asset ID must be in 'XXX-YYY' format."])).
Proof.
  apply (malformed_id_is_usage_error (sample_runtime NoSuchProgram)
           (sample_invocation "001-000" "001_002" false) empty_world
           "001-000" "001_002" "box.example.com"); try reflexivity;
    [discriminate|].
  right. split; [exists 1000; reflexivity | reflexivity].
Defined.

Lemma main_saves_the_strip_witness :
  let rt := sample_runtime NoSuchProgram in
  let inv := sample_invocation "001-000" "001-002" false in
  let url := "https://box.example.com/a/" in
  run_main rt inv empty_world
  = (0, mkWorld (<["asset_labels.png" := strip_of rt 1000 1002 url]> (files empty_world))
          (trace empty_world ++ rendering 1000 1002 url
           ++ [SaveImage "asset_labels.png";
               Stdout "Successfully created asset_labels.png"]))
  /\ forall other, other <> "asset_labels.png" ->
       files (snd (run_main rt inv empty_world)) !! other = files empty_world !! other.
Proof.
  intros rt inv url.
  apply (main_saves_the_strip rt inv empty_world "001-000" "001-002"
           "box.example.com" 1000 1002); try reflexivity; [discriminate | lia].
Defined.

Lemma main_prints_the_strip_witness :
  let rt := sample_runtime (Exited 0 EmptyString) in
  let inv := sample_invocation "001-000" "001-002" true in
  let url := "https://box.example.com/a/" in
  run_main rt inv empty_world
  = (0, mkWorld (<["asset_labels.png" := strip_of rt 1000 1002 url]> (files empty_world))
          (trace empty_world ++ rendering 1000 1002 url
           ++ [SaveImage "asset_labels.png";
               Stdout "Successfully created asset_labels.png";
               Spawn (print_cmd "asset_labels.png");
               Stdout "Successfully printed asset_labels.png"])).
Proof.
  intros rt inv url.
  apply (main_prints_the_strip rt inv empty_world "001-000" "001-002"
           "box.example.com" EmptyString 1000 1002); try reflexivity;
    [discriminate | lia].
Defined.

Lemma save_failure_is_fatal_witness :
  let inv := sample_invocation "001-000" "001-002" true in
  fst (main read_only_runtime inv empty_world)
  = Raise (OSError "Read-only file system")
  /\ fst (run_main read_only_runtime inv empty_world) = 1
  /\ trace (snd (main read_only_runtime inv empty_world))
     = (trace empty_world ++ rendering 1000 1002 "https://box.example.com/a/")%list.
Proof.
  intros inv.
  apply (save_failure_is_fatal read_only_runtime inv empty_world "001-000"
           "001-002" "box.example.com" 1000 1002 (OSError "Read-only file system"));
    try reflexivity; [discriminate | lia].
Defined.


Lemma payloads_use_the_domain_witness :
  encoded (trace (snd (main (sample_runtime NoSuchProgram)
                         {| opt_start := Some "001-000"; opt_end := Some "001-001";
                            opt_domain := Some "box.example.com";
                            opt_print := false; opt_output := None;
                            env_HOMEBOX_DOMAIN := Some "other.example.org" |}
                         empty_world)))
  = ["https://box.example.com/a/001-000"; "https://box.example.com/a/001-001"].
Proof.
  apply (payloads_use_the_domain (sample_runtime NoSuchProgram)
           {| opt_start := Some "001-000"; opt_end := Some "001-001";
              opt_domain := Some "box.example.com";
              opt_print := false; opt_output := None;
              env_HOMEBOX_DOMAIN := Some "other.example.org" |}
           empty_world "001-000" "001-001" "box.example.com" 1000 1001);
    try reflexivity; [left; reflexivity | discriminate | lia].
Defined.

Lemma empty_domain_option_is_usage_error_witness :
  run_main (sample_runtime NoSuchProgram)
    {| opt_start := Some "001-000"; opt_end := Some "001-001";
       opt_domain := Some EmptyString;
       opt_print := false; opt_output := None;
       env_HOMEBOX_DOMAIN := Some "box.example.com" |}
    empty_world
  = (2, mkWorld (files empty_world)
          (trace empty_world ++ [UsageError
             "The --domain argument or HOMEBOX_DOMAIN environment variable is required."])).
Proof.
  apply (empty_domain_option_is_usage_error (sample_runtime NoSuchProgram) _
           empty_world "001-000" "001-001"); reflexivity.
Defined.

(** ** What a label shows *)

Section LabelContent.

Context (rt : Runtime).

Lemma id_parts_nonneg (number : Z) :
  0 <= number ->
  id_parts number
  = (Py.format_03d (number / 1000), Py.format_03d (number mod 1000)).
Proof.
  intros H. unfold id_parts, format_asset_id.
  change ("-" ++ Py.format_03d (number mod 1000))
    with (String "-" (Py.format_03d (number mod 1000))).
  destruct (format_03d_nonneg (number / 1000)) as [Ha _];
    [apply Z.div_pos; lia|].
  destruct (format_03d_nonneg (number mod 1000)) as [Hb _];
    [apply Z.mod_pos_bound; lia|].
  now rewrite (split_two_fields _ _ (all_digits_no_dash _ Ha) (all_digits_no_dash _ Hb)).
Qed.

(** X16. For a number that is not negative, [create_label] encodes the
    URL followed by the formatted ID, queries the font once and draws the
    two halves of the ID, the first at height [TEXT_START_Y] and the
    second [TEXT_LINE_SPACING] below it. *)
Theorem label_events_of_number (number : Z) (url : string) (w : World) :
  0 <= number ->
  let major := Py.format_03d (number / 1000) in
  let minor := Py.format_03d (number mod 1000) in
  exists unit,
    create_label rt number url w
    = (Ok unit,
       mkWorld (files w)
         (trace w
          ++ [QrEncode (url ++ major ++ "-" ++ minor)%string;
              Spawn fc_match_cmd;
              DrawText (0, 38) major;
              DrawText (0, 66) minor])).
Proof.
  intros H major minor. rewrite create_label_run. eexists. f_equal.
  unfold label_events. rewrite (id_parts_nonneg number H). reflexivity.
Qed.

(** X17. For a negative number the minus sign of the formatted ID is
    read as a separator: the first text drawn is empty, the second is the
    digits of the first half, and the second half is not drawn. *)
Theorem label_events_of_negative_number (number : Z) (url : string) (w : World) :
  number < 0 ->
  exists unit digits,
    Py.format_03d (number / 1000) = String "-" digits
    /\ create_label rt number url w
       = (Ok unit,
          mkWorld (files w)
            (trace w
             ++ [QrEncode (url ++ format_asset_id number)%string;
                 Spawn fc_match_cmd;
                 DrawText (0, 38) EmptyString;
                 DrawText (0, 66) digits])).
Proof.
  intros H. rewrite create_label_run.
  set (hi := number / 1000).
  assert (Hhi : hi < 0) by (apply Z.div_lt_upper_bound; lia).
  set (digits := Py.zeros (2 - String.length (Py.dec (Z.abs_N hi)))
                 ++ Py.dec (Z.abs_N hi)).
  assert (F : Py.format_03d hi = String "-" digits).
  { unfold Py.format_03d. now replace (hi <? 0)%Z with true
      by (symmetry; apply Z.ltb_lt; lia). }
  assert (D : all_digits digits = true).
  { subst digits. rewrite all_digits_app.
    destruct (zeros_digits (2 - String.length (Py.dec (Z.abs_N hi)))) as [-> _].
    now destruct (dec_digits (Z.abs_N hi)) as (_ & -> & _). }
  destruct (format_03d_nonneg (number mod 1000)) as [Hb _];
    [apply Z.mod_pos_bound; lia|].
  assert (P : id_parts number = (EmptyString, digits)).
  { unfold id_parts, format_asset_id. fold hi. rewrite F.
    change (String "-" digits ++ "-" ++ Py.format_03d (number mod 1000))
      with (String "-" (digits ++ String "-" (Py.format_03d (number mod 1000)))).
    rewrite split_leading_sep.
    now rewrite (split_two_fields _ _ (all_digits_no_dash _ D) (all_digits_no_dash _ Hb)). }
  exists (label_of rt number url), digits. split; [exact F|].
  f_equal. unfold label_events. now rewrite P.
Qed.

End LabelContent.

Lemma label_events_of_number_witness :
  exists unit,
    create_label (sample_runtime NoSuchProgram) 1086 "https://box.example.com/a/"
      empty_world
    = (Ok unit,
       mkWorld (files empty_world)
         (trace empty_world
          ++ [QrEncode "https://box.example.com/a/001-086";
              Spawn fc_match_cmd;
              DrawText (0, 38) "001";
              DrawText (0, 66) "086"])).
Proof.
  apply (label_events_of_number (sample_runtime NoSuchProgram) 1086
           "https://box.example.com/a/" empty_world). lia.
Defined.

Lemma label_events_of_negative_number_witness :
  exists unit digits,
    Py.format_03d (-1 / 1000) = String "-" digits
    /\ create_label (sample_runtime NoSuchProgram) (-1) "https://box.example.com/a/"
         empty_world
       = (Ok unit,
          mkWorld (files empty_world)
            (trace empty_world
             ++ [QrEncode ("https://box.example.com/a/" ++ format_asset_id (-1))%string;
                 Spawn fc_match_cmd;
                 DrawText (0, 38) EmptyString;
                 DrawText (0, 66) digits])).
Proof.
  apply (label_events_of_negative_number (sample_runtime NoSuchProgram) (-1)
           "https://box.example.com/a/" empty_world). lia.
Defined.

(** ** The content of strips and labels *)

Lemma sum_cons (a : Z) (l : list Z) : Py.sum (a :: l) = a + Py.sum l.
Proof.
  unfold Py.sum. cbn [fold_left].
  enough (G : forall acc b, fold_left Z.add l (acc + b) = acc + fold_left Z.add l b)
    by (rewrite Z.add_comm; apply G).
  induction l as [|c l IH]; intros acc b; cbn [fold_left]; [reflexivity|].
  now rewrite <- Z.add_assoc, IH.
Qed.

Lemma sum_nonneg (l : list Z) : Forall (fun z => 0 <= z) l -> 0 <= Py.sum l.
Proof.
  induction 1 as [|a l Ha _ IH]; [reflexivity|]. rewrite sum_cons. lia.
Qed.

Lemma label_offset_0 (labels : list Image) : label_offset labels 0 = 0.
Proof. reflexivity. Qed.

Lemma label_offset_S (l : Image) (rest : list Image) (k : nat) :
  label_offset (l :: rest) (S k) = width l + LABEL_GAP + label_offset rest k.
Proof.
  unfold label_offset. cbn [firstn map]. rewrite sum_cons. unfold LABEL_GAP. lia.
Qed.

Lemma label_offset_nonneg (labels : list Image) (k : nat) :
  Forall (fun l => 0 <= width l) labels -> 0 <= label_offset labels k.
Proof.
  intros H. revert k. induction H as [|l rest Hl _ IH]; intros k.
  - unfold label_offset. rewrite firstn_nil. cbn [map]. unfold Py.sum, LABEL_GAP.
    cbn [fold_left]. lia.
  - destruct k as [|k]; [rewrite label_offset_0; lia|].
    rewrite label_offset_S. specialize (IH k). unfold LABEL_GAP. lia.
Qed.

Lemma strip_pixel_left (labels : list Image) (x_cursor : Z)
    (base : Z -> Z -> pixel) (x y : Z) :
  Forall (fun l => 0 <= width l) labels ->
  x < x_cursor ->
  strip_pixel labels x_cursor base x y = base x y.
Proof.
  intros H. revert x_cursor. induction H as [|l rest Hl _ IH]; intros x_cursor Hx;
    cbn [strip_pixel]; [reflexivity|].
  replace (x_cursor <=? x)%Z with false by (symmetry; apply Z.leb_gt; lia).
  cbn [andb]. apply IH. unfold LABEL_GAP. lia.
Qed.

Lemma strip_pixel_ext (labels : list Image) (x_cursor : Z)
    (base base' : Z -> Z -> pixel) (x y : Z) :
  base x y = base' x y ->
  strip_pixel labels x_cursor base x y = strip_pixel labels x_cursor base' x y.
Proof.
  intros H. revert x_cursor. induction labels as [|l rest IH]; intros x_cursor;
    cbn [strip_pixel]; [exact H|].
  now rewrite IH.
Qed.

Lemma paste_loop_pixels (labels : list Image) (strip : Image) (x_cursor x y : Z) :
  Forall (fun l => 0 <= width l) labels ->
  getpixel
    (fst (fold_left
            (fun '(strip, x_cursor) l =>
               (Img.paste strip l (x_cursor, 0), x_cursor + (width l + LABEL_GAP)))
            labels (strip, x_cursor))) x y
  = strip_pixel labels x_cursor (getpixel strip) x y.
Proof.
  intros H. revert strip x_cursor.
  induction H as [|l rest Hl Hrest IH]; intros strip x_cursor; [reflexivity|].
  cbn [fold_left strip_pixel]. rewrite IH.
  destruct ((x_cursor <=? x) && (x <? x_cursor + width l)
            && (0 <=? y) && (y <? 0 + height l))%Z eqn:B.
  - rewrite strip_pixel_left; [|exact Hrest|].
    + cbn [Img.paste getpixel]. now rewrite B.
    + apply andb_true_iff in B as [B _]. apply andb_true_iff in B as [B _].
      apply andb_true_iff in B as [_ B]. apply Z.ltb_lt in B. unfold LABEL_GAP. lia.
  - apply strip_pixel_ext. cbn [Img.paste getpixel]. now rewrite B.
Qed.

Lemma assemble_strip_pixels (labels : list Image) (x y : Z) :
  Forall (fun l => 0 <= width l) labels ->
  getpixel (assemble_strip labels) x y
  = strip_pixel labels 0 (fun _ _ => white) x y.
Proof.
  intros H. unfold assemble_strip.
  pose proof (paste_loop_pixels labels
                (Img.new (Py.sum (map width labels)
                          + Z.of_nat (length labels) * LABEL_GAP, TAPE_HEIGHT) white)
                0 x y H) as P.
  destruct (fold_left _ labels _) as [s' x']. exact P.
Qed.

Lemma strip_pixel_of_label (labels : list Image) (k : nat) (l : Image)
    (x_cursor : Z) (base : Z -> Z -> pixel) (x y : Z) :
  Forall (fun l => 0 <= width l) labels ->
  nth_error labels k = Some l ->
  0 <= x < width l -> 0 <= y < height l ->
  strip_pixel labels x_cursor base (x_cursor + label_offset labels k + x) y
  = getpixel l x y.
Proof.
  intros H. revert k x_cursor.
  induction H as [|l0 rest Hl Hrest IH]; intros k x_cursor Hk Hx Hy;
    [destruct k; discriminate|].
  destruct k as [|k]; cbn [nth_error] in Hk.
  - injection Hk as ->. cbn [strip_pixel]. rewrite label_offset_0.
    replace ((x_cursor <=? x_cursor + 0 + x)
             && (x_cursor + 0 + x <? x_cursor + width l)
             && (0 <=? y) && (y <? 0 + height l))%Z with true
      by (symmetry; rewrite !andb_true_iff, !Z.leb_le, !Z.ltb_lt; lia).
    f_equal; lia.
  - cbn [strip_pixel]. rewrite label_offset_S.
    pose proof (label_offset_nonneg rest k Hrest).
    replace (x_cursor + (width l0 + LABEL_GAP + label_offset rest k) + x
             <? x_cursor + width l0)%Z with false
      by (symmetry; apply Z.ltb_ge; unfold LABEL_GAP; lia).
    rewrite andb_false_r. cbn [andb].
    rewrite <- (IH k (x_cursor + (width l0 + LABEL_GAP)) Hk Hx Hy).
    f_equal. lia.
Qed.

Lemma strip_pixel_of_gap (labels : list Image) (k : nat) (l : Image)
    (x_cursor : Z) (base : Z -> Z -> pixel) (x y : Z) :
  Forall (fun l => 0 <= width l) labels ->
  nth_error labels k = Some l ->
  width l <= x < width l + LABEL_GAP ->
  strip_pixel labels x_cursor base (x_cursor + label_offset labels k + x) y
  = base (x_cursor + label_offset labels k + x) y.
Proof.
  intros H. revert k x_cursor.
  induction H as [|l0 rest Hl Hrest IH]; intros k x_cursor Hk Hx;
    [destruct k; discriminate|].
  destruct k as [|k]; cbn [nth_error] in Hk.
  - injection Hk as ->. cbn [strip_pixel]. rewrite label_offset_0.
    replace (x_cursor + 0 + x <? x_cursor + width l)%Z with false
      by (symmetry; apply Z.ltb_ge; lia).
    rewrite andb_false_r. cbn [andb].
    apply strip_pixel_left; [exact Hrest | lia].
  - cbn [strip_pixel]. rewrite label_offset_S.
    pose proof (label_offset_nonneg rest k Hrest).
    assert (0 <= width l)
      by (apply (proj1 (List.Forall_forall _ rest) Hrest), (nth_error_In _ _ Hk)).
    replace (x_cursor + (width l0 + LABEL_GAP + label_offset rest k) + x
             <? x_cursor + width l0)%Z with false
      by (symmetry; apply Z.ltb_ge; unfold LABEL_GAP in *; lia).
    rewrite andb_false_r. cbn [andb].
    replace (x_cursor + (width l0 + LABEL_GAP + label_offset rest k) + x)
      with (x_cursor + (width l0 + LABEL_GAP) + label_offset rest k + x) by lia.
    apply (IH k (x_cursor + (width l0 + LABEL_GAP)) Hk Hx).
Qed.

(** X18. In the strip of labels of widths that are not negative, every
    label appears whole and unchanged: the pixel [(x, y)] of the label at
    position [k] is the pixel of the strip at column [label_offset labels
    k + x], the sum of the widths and gaps of the labels before it. *)
Theorem strip_shows_every_label (labels : list Image) (k : nat) (l : Image)
    (x y : Z) :
  Forall (fun l => 0 <= width l) labels ->
  nth_error labels k = Some l ->
  0 <= x < width l ->
  0 <= y < height l ->
  getpixel (assemble_strip labels) (label_offset labels k + x) y = getpixel l x y.
Proof.
  intros H Hk Hx Hy. rewrite assemble_strip_pixels by exact H.
  exact (strip_pixel_of_label labels k l 0 _ x y H Hk Hx Hy).
Qed.

(** X19. In the strip of labels of widths that are not negative, the
    [LABEL_GAP] columns after every label, the last one included, are
    white. *)
Theorem strip_gaps_are_white (labels : list Image) (k : nat) (l : Image)
    (x y : Z) :
  Forall (fun l => 0 <= width l) labels ->
  nth_error labels k = Some l ->
  width l <= x < width l + LABEL_GAP ->
  getpixel (assemble_strip labels) (label_offset labels k + x) y = white.
Proof.
  intros H Hk Hx. rewrite assemble_strip_pixels by exact H.
  exact (strip_pixel_of_gap labels k l 0 (fun _ _ => white) x y H Hk Hx).
Qed.

Lemma strip_shows_every_label_witness :
  let rt := sample_runtime NoSuchProgram in
  let labels := labels_of rt 1000 1001 "https://box.example.com/a/" in
  label_offset labels 1 = 155
  /\ getpixel (assemble_strip labels) (label_offset labels 1 + 70) 40
     = getpixel (label_of rt 1001 "https://box.example.com/a/") 70 40.
Proof.
  intros rt labels. split; [vm_compute; reflexivity|].
  apply (strip_shows_every_label labels 1
           (label_of rt 1001 "https://box.example.com/a/") 70 40).
  - repeat constructor; vm_compute; discriminate.
  - reflexivity.
  - vm_compute. split; [discriminate | reflexivity].
  - vm_compute. split; [discriminate | reflexivity].
Defined.

Lemma strip_gaps_are_white_witness :
  let rt := sample_runtime NoSuchProgram in
  let labels := labels_of rt 1000 1001 "https://box.example.com/a/" in
  width (assemble_strip labels) = 310
  /\ getpixel (assemble_strip labels) (label_offset labels 1 + 154) 40 = white.
Proof.
  intros rt labels. split; [vm_compute; reflexivity|].
  apply (strip_gaps_are_white labels 1
           (label_of rt 1001 "https://box.example.com/a/") 154 40).
  - repeat constructor; vm_compute; discriminate.
  - reflexivity.
  - vm_compute. split; [discriminate | reflexivity].
Defined.





(** ** The crop of the text canvas *)

Lemma range_first (n : Z) :
  0 < n -> exists rest, Py.range 0 n = 0 :: rest.
Proof.
  intros H. unfold Py.range. destruct (Z.to_nat (n - 0)) as [|m] eqn:E; [lia|].
  cbn [seq map]. eauto.
Qed.

Lemma range_last (n : Z) :
  0 < n -> exists front, Py.range 0 n = (front ++ [n - 1])%list.
Proof.
  intros H. unfold Py.range. destruct (Z.to_nat (n - 0)) as [|m] eqn:E; [lia|].
  rewrite seq_S, map_app. cbn [map Nat.add]. eexists. f_equal. f_equal. lia.
Qed.

Lemma range_In (a b x : Z) : a <= x < b -> In x (Py.range a b).
Proof.
  intros H. unfold Py.range. apply in_map_iff. exists (Z.to_nat (x - a)).
  split; [lia|]. apply in_seq. lia.
Qed.

Lemma filter_first_last (P : Z -> bool) (n : Z) :
  0 < n -> P 0 = true -> P (n - 1) = true ->
  exists rest,
    List.filter P (Py.range 0 n) = 0 :: rest
    /\ List.last (List.filter P (Py.range 0 n)) 0 = n - 1.
Proof.
  intros H H0 Hn.
  destruct (range_first n H) as [rest E]. destruct (range_last n H) as [front F].
  exists (List.filter P rest). split.
  - rewrite E. cbn [List.filter]. now rewrite H0.
  - rewrite F, List.filter_app. cbn [List.filter]. rewrite Hn. apply last_last.
Qed.

(** [getbbox] keeps the whole image when its first and its last pixel
    are not black. *)
Lemma getbbox_whole_image (im : Image) :
  0 < width im -> 0 < height im ->
  nonzero (getpixel im 0 0) = true ->
  nonzero (getpixel im (width im - 1) (height im - 1)) = true ->
  Img.getbbox im = Some (0, 0, width im, height im).
Proof.
  intros Hw Hh H0 H1. unfold Img.getbbox.
  destruct (filter_first_last
              (fun x => existsb (fun y => nonzero (getpixel im x y))
                          (Py.range 0 (height im))) (width im) Hw)
    as (cols & -> & Lc).
  { apply existsb_exists. exists 0. split; [apply range_In; lia | exact H0]. }
  { apply existsb_exists. exists (height im - 1).
    split; [apply range_In; lia | exact H1]. }
  destruct (filter_first_last
              (fun y => existsb (fun x => nonzero (getpixel im x y))
                          (Py.range 0 (width im))) (height im) Hh)
    as (rows & -> & Lr).
  { apply existsb_exists. exists 0. split; [apply range_In; lia | exact H0]. }
  { apply existsb_exists. exists (width im - 1).
    split; [apply range_In; lia | exact H1]. }
  rewrite Lc, Lr. repeat f_equal; lia.
Qed.

Lemma label_text_is_crop (rt : Runtime) (number : Z) :
  label_text rt number
  = Img.crop (text_canvas rt number) (Img.getbbox (text_canvas rt number)).
Proof.
  unfold label_text, text_canvas. destruct (id_parts number). reflexivity.
Qed.

(** X22. The crop of [create_label] keeps every column and row between
    the first and the last that hold a pixel other than black, and the
    canvas is white: when its first and its last pixel stay white after
    the text is drawn, the text block is the whole canvas, 90 by 152, the
    label is 96 columns wider than its QR symbol, and the row
    [TEXT_START_Y] of the canvas is the first row of the label. *)
Theorem white_canvas_is_not_cropped (rt : Runtime) (number : Z) (url : string)
    (x y : Z) :
  nonzero (getpixel (text_canvas rt number) 0 0) = true ->
  nonzero (getpixel (text_canvas rt number)
             (TEMP_CANVAS_WIDTH - 1) (TAPE_HEIGHT * 2 - 1)) = true ->
  0 <= x < TEMP_CANVAS_WIDTH ->
  0 <= y < TAPE_HEIGHT ->
  width (label_text rt number) = TEMP_CANVAS_WIDTH
  /\ height (label_text rt number) = TAPE_HEIGHT * 2
  /\ width (label_of rt number url)
     = width (label_qr rt number url) + ELEMENT_GAP + TEMP_CANVAS_WIDTH
  /\ getpixel (label_of rt number url)
       (width (label_qr rt number url) + ELEMENT_GAP + x) y
     = getpixel (text_canvas rt number) x (TEXT_START_Y + y).
Proof.
  intros H0 H1 Hx Hy.
  assert (B : Img.getbbox (text_canvas rt number)
              = Some (0, 0, TEMP_CANVAS_WIDTH, TAPE_HEIGHT * 2)).
  { apply (getbbox_whole_image (text_canvas rt number)); try reflexivity; assumption. }
  assert (T : label_text rt number
              = mkImage (TEMP_CANVAS_WIDTH - 0) (TAPE_HEIGHT * 2 - 0)
                  (fun x y => getpixel (text_canvas rt number) (x + 0) (y + 0))).
  { rewrite label_text_is_crop, B. reflexivity. }
  split; [now rewrite T|]. split; [now rewrite T|].
  split.
  - unfold label_of, assemble_unit.
    repeat match goal with
           | |- context [Img.paste ?im ?src ?box] =>
               destruct (paste_size im src box) as [-> ->]
           end.
    now rewrite T.
  - unfold label_of, assemble_unit. rewrite T.
    cbn [Img.paste Img.new getpixel width height fst snd].
    unfold TEMP_CANVAS_WIDTH, TAPE_HEIGHT, TEXT_START_Y, ELEMENT_GAP in *.
    change ((76 - (76 * 2 - 0)) / 2) with (-38).
    set (qw := width (label_qr rt number url)).
    replace ((qw + 6 <=? qw + 6 + x) && (qw + 6 + x <? qw + 6 + (90 - 0))
             && (-38 <=? y) && (y <? -38 + (76 * 2 - 0)))%Z with true
      by (symmetry; rewrite !andb_true_iff, !Z.leb_le, !Z.ltb_lt; lia).
    f_equal; lia.
Qed.

Lemma white_canvas_is_not_cropped_witness :
  let rt := sample_runtime NoSuchProgram in
  let url := "https://box.example.com/a/" in
  width (label_text rt 1000) = TEMP_CANVAS_WIDTH
  /\ height (label_text rt 1000) = TAPE_HEIGHT * 2
  /\ width (label_of rt 1000 url)
     = width (label_qr rt 1000 url) + ELEMENT_GAP + TEMP_CANVAS_WIDTH
  /\ getpixel (label_of rt 1000 url) (width (label_qr rt 1000 url) + ELEMENT_GAP + 10) 5
     = getpixel (text_canvas rt 1000) 10 (TEXT_START_Y + 5).
Proof.
  intros rt url.
  apply (white_canvas_is_not_cropped rt 1000 url 10 5);
    try reflexivity; vm_compute; (split; [discriminate | reflexivity]).
Defined.
